(** * claude-quiz-hook: the spaced-repetition scheduler and the result ledger

    A shallow embedding of [src/scheduler.py] and of the score accumulation of
    [src/results_tracker.py], with the properties of the scheduling and
    state-transition engine proved over it.

    Conventions of the embedding.
    - A Python [dict] whose keys are fixed by the program is a record; a key the
      program reads with [.get] or tests with [in] is an [option] field, [None]
      standing for "key absent".
    - A [dict] used as a map (configuration, statistics, topic scores) is a
      [gmap string _].
    - Python integers are [Z].
    - A call that may raise returns [res A]: [Ok a] or [Raise e].
    - [datetime.now()] is an explicit argument: the reading of the clock. *)

From Stdlib Require Import ZArith Lia Ascii.
From stdpp Require Import base numbers option list sorting strings pretty gmap.

Open Scope Z_scope.

(** ** Exceptions and fallible computations *)

Inductive exn : Type :=
  | KeyError (key : string)
  | ValueError
  | OverflowError
  | JSONDecodeError
  | IOError
  | UnicodeDecodeError.

Inductive res (A : Type) : Type :=
  | Ok (a : A)
  | Raise (e : exn).

Arguments Ok {A} a.
Arguments Raise {A} e.

#[global] Instance res_ret : MRet res := fun A a => Ok a.

#[global] Instance res_bind : MBind res := fun A B f m =>
  match m with
  | Ok a => f a
  | Raise e => Raise e
  end.

Definition returns {A} (m : res A) : Prop := exists a, m = Ok a.

(** [d[key]]: subscripting a dict raises [KeyError] on an absent key. *)
Definition subscript {A} (key : string) (field : option A) : res A :=
  match field with
  | Some a => Ok a
  | None => Raise (KeyError key)
  end.

(** [d.get(key, default)]. *)
Definition get_or {A} (field : option A) (default : A) : A :=
  match field with
  | Some a => a
  | None => default
  end.

(** ** The standard library's naive [datetime]

    A date is held by its proleptic Gregorian ordinal ([date.toordinal()], day 1
    is 0001-01-01, a Monday), through which CPython itself defines weekdays,
    date differences and [timedelta] arithmetic. *)

Module Datetime.

Definition MAXORDINAL : Z := 3652059.

Record datetime : Type := mk_datetime {
  toordinal : Z;
  hour : Z;
  minute : Z;
  second : Z;
  microsecond : Z
}.

#[global] Instance datetime_eq_dec : EqDecision datetime.
Proof. solve_decision. Defined.

Definition valid_time (h m s us : Z) : bool :=
  (0 <=? h) && (h <? 24) && (0 <=? m) && (m <? 60) &&
  (0 <=? s) && (s <? 60) && (0 <=? us) && (us <? 1000000).

Definition valid (d : datetime) : bool :=
  (1 <=? toordinal d) && (toordinal d <=? MAXORDINAL) &&
  valid_time (hour d) (minute d) (second d) (microsecond d).

(** [self.weekday()]: Monday is 0, Sunday is 6. *)
Definition weekday (d : datetime) : Z := (toordinal d + 6) mod 7.

(** [(a.date() - b.date()).days] *)
Definition days_between (a b : datetime) : Z := toordinal a - toordinal b.

(** A normalised [timedelta]: [0 <= seconds < 86400], [0 <= microseconds < 10^6]. *)
Record timedelta : Type := mk_timedelta {
  td_days : Z;
  td_seconds : Z;
  td_microseconds : Z
}.

(** [timedelta(days=days, hours=hours)] *)
Definition timedelta_of (days hours : Z) : res timedelta :=
  let s := hours * 3600 in
  let d := days + s / 86400 in
  if Z.abs d <=? 999999999
  then Ok {| td_days := d; td_seconds := s mod 86400; td_microseconds := 0 |}
  else Raise OverflowError.

(** [self + other] for a [timedelta] [other]. *)
Definition add (self : datetime) (other : timedelta) : res datetime :=
  let us := microsecond self + td_microseconds other in
  let s := hour self * 3600 + minute self * 60 + second self
           + td_seconds other + us / 1000000 in
  let days := toordinal self + td_days other + s / 86400 in
  let rem := s mod 86400 in
  if (0 <? days) && (days <=? MAXORDINAL)
  then Ok {| toordinal := days;
             hour := rem / 3600;
             minute := (rem mod 3600) / 60;
             second := (rem mod 3600) mod 60;
             microsecond := us mod 1000000 |}
  else Raise OverflowError.

(** An integer that fits a C [int]. *)
Definition fits_int (z : Z) : bool :=
  (-2147483648 <=? z) && (z <=? 2147483647).

(** [self.replace(hour=h, minute=m, second=s, microsecond=us)]: the
    arguments are first converted to C integers, which raises [OverflowError]
    for a Python integer that does not fit one, and then checked against the
    range of their field, which raises [ValueError]. *)
Definition replace_time (self : datetime) (h m s us : Z) : res datetime :=
  if negb (fits_int h && fits_int m && fits_int s && fits_int us)
  then Raise OverflowError
  else if valid_time h m s us
  then Ok {| toordinal := toordinal self;
             hour := h; minute := m; second := s; microsecond := us |}
  else Raise ValueError.

(** Comparison of naive datetimes: field by field, most significant first. *)
Fixpoint lex_leb (a b : list Z) : bool :=
  match a, b with
  | x :: a', y :: b' => (x <? y) || ((x =? y) && lex_leb a' b')
  | _, _ => true
  end.

Definition fields (d : datetime) : list Z :=
  [toordinal d; hour d; minute d; second d; microsecond d].

Definition leb (a b : datetime) : bool := lex_leb (fields a) (fields b).

(** The text of a timestamp held in a JSON document, up to what
    [datetime.fromisoformat] makes of it: text that reads as a naive datetime
    (what [isoformat] writes, or any other spelling of the same instant), or
    text that [fromisoformat] rejects. The program never compares timestamp
    texts as strings; it only parses them. Text that reads as a datetime with
    a UTC offset, which the program never writes, has no counterpart here. *)
Inductive isotext : Type :=
  | IsoText (d : datetime)
  | NotIso (s : string).

#[global] Instance isotext_eq_dec : EqDecision isotext.
Proof. solve_decision. Defined.

Definition isoformat (d : datetime) : isotext := IsoText d.

Definition fromisoformat (t : isotext) : res datetime :=
  match t with
  | IsoText d => Ok d
  | NotIso _ => Raise ValueError
  end.

End Datetime.

Import Datetime.

(** ** [scheduler.py] *)

(** [class ScheduleType(Enum)] *)
Inductive ScheduleType : Type :=
  | SAME_DAY
  | NEXT_DAY
  | WEEKLY
  | ON_DEMAND.

#[global] Instance ScheduleType_eq_dec : EqDecision ScheduleType.
Proof. solve_decision. Defined.

(** [member.value] *)
Definition value (t : ScheduleType) : string :=
  match t with
  | SAME_DAY => "same_day"
  | NEXT_DAY => "next_day"
  | WEEKLY => "weekly"
  | ON_DEMAND => "on_demand"
  end.

(** [ScheduleType(s)]: lookup of a member by value, [ValueError] when no
    member has that value. *)
Definition ScheduleType_of_value (s : string) : res ScheduleType :=
  if String.eqb s "same_day" then Ok SAME_DAY
  else if String.eqb s "next_day" then Ok NEXT_DAY
  else if String.eqb s "weekly" then Ok WEEKLY
  else if String.eqb s "on_demand" then Ok ON_DEMAND
  else Raise ValueError.

Definition DEFAULT_CONFIG : gmap string Z :=
  <["same_day_delay_hours" := 4]>
  (<["next_day_hour" := 9]>
  (<["weekly_day" := 4]>
  (<["min_session_minutes" := 15]>
  (<["min_activities" := 5]> ∅)))).

(** [config or DEFAULT_CONFIG]: [None] and the empty dict are both falsy. *)
Definition config_or_default (config : option (gmap string Z)) : gmap string Z :=
  match config with
  | Some c => if decide (c = ∅) then DEFAULT_CONFIG else c
  | None => DEFAULT_CONFIG
  end.

(** [@dataclass class QuizSchedule] *)
Record QuizSchedule : Type := mk_QuizSchedule {
  session_id : string;
  schedule_type : ScheduleType;
  scheduled_for : datetime;
  summary_path : string;
  created_at : datetime
}.

(** The generated [__init__] followed by [__post_init__]: an unset
    [created_at] is filled with a reading of the clock. *)
Definition new_QuizSchedule (clock : datetime) (session_id : string)
    (schedule_type : ScheduleType) (scheduled_for : datetime)
    (summary_path : string) (created_at : option datetime) : QuizSchedule :=
  {| session_id := session_id;
     schedule_type := schedule_type;
     scheduled_for := scheduled_for;
     summary_path := summary_path;
     created_at := match created_at with
                   | Some c => c
                   | None => clock
                   end |}.

(** A schedule as it is stored in the state document. *)
Record quiz_dict : Type := mk_quiz_dict {
  qd_session_id : option string;
  qd_type : option string;
  qd_scheduled_for : option isotext;
  qd_summary_path : option string;
  qd_created_at : option isotext
}.

#[global] Instance quiz_dict_eq_dec : EqDecision quiz_dict.
Proof. solve_decision. Defined.

(** [QuizSchedule.to_dict] *)
Definition to_dict (self : QuizSchedule) : quiz_dict :=
  {| qd_session_id := Some (session_id self);
     qd_type := Some (value (schedule_type self));
     qd_scheduled_for := Some (isoformat (scheduled_for self));
     qd_summary_path := Some (summary_path self);
     qd_created_at := Some (isoformat (created_at self)) |}.

(** [QuizSchedule.from_dict]; the keyword arguments are evaluated in the
    order they are written. *)
Definition from_dict (now : datetime) (data : quiz_dict) : res QuizSchedule :=
  sid ← subscript "session_id" (qd_session_id data);
  ty ← subscript "type" (qd_type data);
  stype ← ScheduleType_of_value ty;
  sf ← subscript "scheduled_for" (qd_scheduled_for data);
  sfor ← fromisoformat sf;
  spath ← subscript "summary_path" (qd_summary_path data);
  created ← fromisoformat (get_or (qd_created_at data) (isoformat now));
  Ok (new_QuizSchedule now sid stype sfor spath (Some created)).

(** One completion record of [completed_quizzes]; the result attached to it
    is whatever the caller passes. *)
Record completion (R : Type) : Type := mk_completion {
  c_session_id : string;
  c_completed_at : isotext;
  c_result : R
}.

Arguments mk_completion {R} _ _ _.
Arguments c_session_id {R} _.
Arguments c_completed_at {R} _.
Arguments c_result {R} _.

(** One topic or tag bucket of [topic_scores]. *)
Record bucket : Type := mk_bucket {
  correct : Z;
  total : Z
}.

#[global] Instance bucket_eq_dec : EqDecision bucket.
Proof. solve_decision. Defined.

(** The state document of a project ([quiz-state.json]). *)
Record state (R : Type) : Type := mk_state {
  project : option string;
  sessions : option (list string);
  pending_quizzes : option (list quiz_dict);
  completed_quizzes : option (list (completion R));
  topic_scores : option (gmap string bucket)
}.

Arguments mk_state {R} _ _ _ _ _.
Arguments project {R} _.
Arguments sessions {R} _.
Arguments pending_quizzes {R} _.
Arguments completed_quizzes {R} _.
Arguments topic_scores {R} _.

(** What lies at [<project>/.claude/quiz-state.json]: nothing, or a file
    whose [open] and [json.load] yield a document or raise; or the path
    cannot even be examined, [state_file.exists()] itself raising (as it does
    with [PermissionError] for a directory that may not be searched). *)
Inductive state_file (R : Type) : Type :=
  | Absent
  | Present (read : res (state R))
  | ExistsRaises (e : exn).

Arguments Absent {R}.
Arguments Present {R} read.
Arguments ExistsRaises {R} e.

Definition default_state {R} (name : string) : state R :=
  {| project := Some name;
     sessions := Some [];
     pending_quizzes := Some [];
     completed_quizzes := Some [];
     topic_scores := None |}.

(** [load_quiz_state]; [name] is [project_path.name]. The existence test
    stands before the [try]; the handler is
    [except (json.JSONDecodeError, IOError): pass]. *)
Definition load_quiz_state {R} (name : string) (file : state_file R) : res (state R) :=
  match file with
  | ExistsRaises e => Raise e
  | Present (Ok document) => Ok document
  | Present (Raise JSONDecodeError) => Ok (default_state name)
  | Present (Raise IOError) => Ok (default_state name)
  | Present (Raise e) => Raise e
  | Absent => Ok (default_state name)
  end.

(** The session summary, as far as the scheduler reads it. *)
Record summary : Type := mk_summary {
  duration_minutes : option Z;
  stats : option (gmap string Z)
}.

(** [should_schedule_quiz] *)
Definition should_schedule_quiz (summary : summary)
    (config : option (gmap string Z)) : bool :=
  let config := config_or_default config in
  let duration := get_or (duration_minutes summary) 0 in
  let stats := get_or (stats summary) ∅ in
  let total_activities := get_or (stats !! "total_activities") 0 in
  if duration <? get_or (config !! "min_session_minutes") 15 then false
  else if total_activities <? get_or (config !! "min_activities") 5 then false
  else true.

(** [schedule_quiz]; [now] is the clock read on entry, [clock'] the one read
    by [__post_init__]. *)
Definition schedule_quiz (now clock' : datetime) (session_id : string)
    (schedule_type : ScheduleType) (summary_path : string)
    (config : option (gmap string Z)) : res QuizSchedule :=
  let config := config_or_default config in
  scheduled_for ←
    match schedule_type with
    | SAME_DAY =>
        let delay_hours := get_or (config !! "same_day_delay_hours") 4 in
        delta ← timedelta_of 0 delay_hours;
        add now delta
    | NEXT_DAY =>
        delta ← timedelta_of 1 0;
        tomorrow ← add now delta;
        let next_day_hour := get_or (config !! "next_day_hour") 9 in
        replace_time tomorrow next_day_hour 0 0 0
    | WEEKLY =>
        let weekly_day := get_or (config !! "weekly_day") 4 in
        let days_ahead := weekly_day - weekday now in
        let days_ahead := if days_ahead <=? 0 then days_ahead + 7 else days_ahead in
        delta ← timedelta_of days_ahead 0;
        target_date ← add now delta;
        replace_time target_date 9 0 0 0
    | ON_DEMAND => Ok now
    end;
  Ok (new_QuizSchedule clock' session_id schedule_type scheduled_for
        summary_path None).

(** The loop of [get_due_quizzes]: [due] is the list built so far. *)
Fixpoint due_loop (now : datetime) (pending due : list quiz_dict)
    : res (list quiz_dict) :=
  match pending with
  | [] => Ok due
  | quiz :: rest =>
      text ← subscript "scheduled_for" (qd_scheduled_for quiz);
      scheduled_for ← fromisoformat text;
      due_loop now rest
        (if leb scheduled_for now then due ++ [quiz] else due)
  end.

(** [get_due_quizzes] *)
Definition get_due_quizzes {R} (now : datetime) (state : state R)
    : res (list quiz_dict) :=
  due_loop now (get_or (pending_quizzes state) []) [].

Definition set_pending_quizzes {R} (st : state R) (pending : list quiz_dict)
    : state R :=
  {| project := project st;
     sessions := sessions st;
     pending_quizzes := Some pending;
     completed_quizzes := completed_quizzes st;
     topic_scores := topic_scores st |}.

Definition set_completed_quizzes {R} (st : state R)
    (completed : list (completion R)) : state R :=
  {| project := project st;
     sessions := sessions st;
     pending_quizzes := pending_quizzes st;
     completed_quizzes := Some completed;
     topic_scores := topic_scores st |}.

Definition set_topic_scores {R} (st : state R) (scores : gmap string bucket)
    : state R :=
  {| project := project st;
     sessions := sessions st;
     pending_quizzes := pending_quizzes st;
     completed_quizzes := completed_quizzes st;
     topic_scores := Some scores |}.

(** [add_pending_quiz] *)
Definition add_pending_quiz {R} (st : state R) (schedule : QuizSchedule)
    : res (state R) :=
  pending ← subscript "pending_quizzes" (pending_quizzes st);
  Ok (set_pending_quizzes st (pending ++ [to_dict schedule])).

(** The comprehension [[q for q in pending if q["session_id"] != session_id]]. *)
Fixpoint others (session_id : string) (pending : list quiz_dict)
    : res (list quiz_dict) :=
  match pending with
  | [] => Ok []
  | q :: rest =>
      sid ← subscript "session_id" (qd_session_id q);
      kept ← others session_id rest;
      Ok (if decide (sid ≠ session_id) then q :: kept else kept)
  end.

(** [mark_quiz_completed]; [now] is the clock read for [completed_at]. *)
Definition mark_quiz_completed {R} (now : datetime) (st : state R)
    (session_id : string) (result : R) : res (state R) :=
  pending ← subscript "pending_quizzes" (pending_quizzes st);
  kept ← others session_id pending;
  let st := set_pending_quizzes st kept in
  completed ← subscript "completed_quizzes" (completed_quizzes st);
  Ok (set_completed_quizzes st
        (completed ++ [mk_completion session_id (isoformat now) result])).

(** ** [results_tracker.py] *)

(** One per-question outcome of a result document, as far as the
    accumulation reads it. *)
Record question : Type := mk_question {
  q_type : option string;
  q_correct : option bool;
  q_tags : option (list string)
}.

(** A quiz result document. *)
Record result_doc : Type := mk_result_doc {
  rd_session_id : option string;
  questions : option (list question)
}.

Definition zero_bucket : bucket := {| correct := 0; total := 0 |}.

(** [b["total"] += 1] and [b["correct"] += 1] *)
Definition incr_total (b : bucket) : bucket :=
  {| correct := correct b; total := total b + 1 |}.

Definition incr_correct (b : bucket) : bucket :=
  {| correct := correct b + 1; total := total b |}.

(** The three statements that [calculate_topic_scores] runs for a key
    ([qtype], then each [tag]) on its local dict [scores]. *)
Definition tally (scores : gmap string bucket) (key : string) (is_correct : bool)
    : gmap string bucket :=
  let scores :=
    match scores !! key with
    | None => <[key := zero_bucket]> scores
    | Some _ => scores
    end in
  let scores := alter incr_total key scores in
  if is_correct then alter incr_correct key scores else scores.

(** The body of the loop over [result.get("questions", [])]. *)
Definition tally_question (scores : gmap string bucket) (question : question)
    : gmap string bucket :=
  let qtype := get_or (q_type question) "unknown" in
  let is_correct := get_or (q_correct question) false in
  let tags := get_or (q_tags question) [] in
  let scores := tally scores qtype is_correct in
  foldl (fun scores tag => tally scores tag is_correct) scores tags.

(** [calculate_topic_scores] *)
Definition calculate_topic_scores (results : list result_doc)
    : gmap string bucket :=
  foldl (fun scores result =>
           foldl tally_question scores (get_or (questions result) []))
        ∅ results.

(** The same three statements as [merge_result_into_state] runs them, on
    the dict held under [state["topic_scores"]]. *)
Definition state_tally {R} (st : state R) (key : string) (is_correct : bool)
    : state R :=
  let st :=
    match get_or (topic_scores st) ∅ !! key with
    | None => set_topic_scores st (<[key := zero_bucket]> (get_or (topic_scores st) ∅))
    | Some _ => st
    end in
  let st := set_topic_scores st (alter incr_total key (get_or (topic_scores st) ∅)) in
  if is_correct
  then set_topic_scores st (alter incr_correct key (get_or (topic_scores st) ∅))
  else st.

Definition merge_question {R} (st : state R) (question : question) : state R :=
  let qtype := get_or (q_type question) "unknown" in
  let is_correct := get_or (q_correct question) false in
  let tags := get_or (q_tags question) [] in
  let st := state_tally st qtype is_correct in
  foldl (fun st tag => state_tally st tag is_correct) st tags.

(** [merge_result_into_state] *)
Definition merge_result_into_state {R} (st : state R) (result : result_doc)
    : state R :=
  let st :=
    match topic_scores st with
    | None => set_topic_scores st ∅
    | Some _ => st
    end in
  foldl merge_question st (get_or (questions result) []).

(** ** The operations on a state document *)

Inductive operation (R : Type) : Type :=
  | AddPending (schedule : QuizSchedule)
  | MarkCompleted (now : datetime) (session_id : string) (result : R)
  | MergeResult (result : result_doc).

Arguments AddPending {R} schedule.
Arguments MarkCompleted {R} now session_id result.
Arguments MergeResult {R} result.

Definition run {R} (st : state R) (op : operation R) : res (state R) :=
  match op with
  | AddPending schedule => add_pending_quiz st schedule
  | MarkCompleted now session_id result =>
      mark_quiz_completed now st session_id result
  | MergeResult result => Ok (merge_result_into_state st result)
  end.

(** ** Specification vocabulary *)

(** The timestamp of a stored schedule, when it has a readable one. *)
Definition timestamp (q : quiz_dict) : option datetime :=
  match qd_scheduled_for q with
  | Some (IsoText d) => Some d
  | _ => None
  end.

(** [q] is due at [now]: its timestamp is not after [now]. *)
Definition is_due (now : datetime) (q : quiz_dict) : bool :=
  match timestamp q with
  | Some d => leb d now
  | None => false
  end.

Definition belongs_to (session_id : string) (q : quiz_dict) : Prop :=
  qd_session_id q = Some session_id.

#[global] Instance belongs_to_dec session_id q : Decision (belongs_to session_id q).
Proof. unfold belongs_to. apply _. Defined.

(** How many of the tags are [key]. *)
Definition tag_count (key : string) (tags : list string) : Z :=
  Z.of_nat (length (filter (fun tag => tag = key) tags)).

(** How many times a question names [key]: once if it is its type (the
    default type being "unknown"), and once per occurrence among its tags. *)
Definition mentions (key : string) (question : question) : Z :=
  (if decide (get_or (q_type question) "unknown" = key) then 1 else 0)
  + tag_count key (get_or (q_tags question) []).

Definition hits (key : string) (questions : list question) : Z :=
  foldr (fun question n => mentions key question + n) 0 questions.

Definition correct_hits (key : string) (questions : list question) : Z :=
  foldr (fun question n =>
           (if get_or (q_correct question) false
            then mentions key question else 0) + n)
        0 questions.

(** The microseconds elapsed since the start of day 0. *)
Definition instant (d : datetime) : Z :=
  (((toordinal d * 24 + hour d) * 60 + minute d) * 60 + second d) * 1000000
  + microsecond d.

(** The bucket found under a key after [n] increments of [total] and [m]
    of [correct]: untouched, and not created, when nothing named the key. *)
Definition credited (found : option bucket) (n m : Z) : option bucket :=
  if decide (n = 0) then found
  else Some {| correct := correct (get_or found zero_bucket) + m;
               total := total (get_or found zero_bucket) + n |}.

(** A bucket whose counters are consistent. *)
Definition consistent (b : bucket) : Prop := 0 <= correct b <= total b.

(** ** [scheduler.py]: notifications *)

(** What [subprocess.run(["osascript", "-e", script], capture_output=True,
    timeout=5)] does: it completes, it times out, the program is not there,
    or the system refuses in some other way (an [OSError]). *)
Inductive run_outcome : Type :=
  | Completed
  | TimeoutExpired
  | FileNotFoundError
  | OtherOSError.

#[global] Instance run_outcome_eq_dec : EqDecision run_outcome.
Proof. solve_decision. Defined.

Definition newline : string := String "010"%char EmptyString.

Definition quote : string := String "034"%char EmptyString.

(** The AppleScript text of [send_notification], an f-string over three
    lines. *)
Definition notification_script (title message : string) : string :=
  newline +:+ "        display notification " +:+ quote +:+ message +:+ quote
  +:+ " with title " +:+ quote +:+ title +:+ quote
  +:+ newline +:+ "        ".

(** [send_notification]: the command it asks the system to run, and how the
    call ends. The handler is
    [except (subprocess.TimeoutExpired, FileNotFoundError): pass]. *)
Definition send_notification (osascript : run_outcome) (title message : string)
    : list (list string) * res unit :=
  ([["osascript"; "-e"; notification_script title message]],
   match osascript with
   | Completed => Ok tt
   | TimeoutExpired => Ok tt
   | FileNotFoundError => Ok tt
   | OtherOSError => Raise IOError
   end).

(** The message of [check_and_notify_due_quizzes]. *)
Definition waiting_message (count : nat) (name : string) : string :=
  "You have " +:+ pretty count +:+ " quiz"
  +:+ (if (1 <? count)%nat then "es" else EmptyString)
  +:+ " waiting for " +:+ name.

(** [check_and_notify_due_quizzes]: the commands it asks the system to run,
    and its result; [name] is [project_path.name]. *)
Definition check_and_notify_due_quizzes {R} (name : string) (file : state_file R)
    (now : datetime) (osascript : run_outcome)
    : list (list string) * res (list quiz_dict) :=
  match load_quiz_state name file with
  | Raise e => ([], Raise e)
  | Ok state =>
      match get_due_quizzes now state with
      | Raise e => ([], Raise e)
      | Ok due =>
          match due with
          | [] => ([], Ok due)
          | _ :: _ =>
              let count := length due in
              let title := "Claude Learning Quiz" in
              let message := waiting_message count name in
              let '(commands, sent) := send_notification osascript title message in
              (commands, _ ← sent; Ok due)
          end
      end
  end.

(** ** [results_tracker.py]: reports *)

(** The [summary] object of a result document. *)
Record result_summary : Type := mk_result_summary {
  rs_total : option Z;
  rs_correct : option Z;
  rs_skipped : option Z
}.

(** A result document as the reporting functions read it. *)
Record result_file : Type := mk_result_file {
  rf_questions : option (list question);
  rf_skip_reasons : option (gmap string Z);
  rf_summary : option result_summary
}.

(** The loop of [load_all_results] over [results_dir.glob("*.json")]: each
    file is given by what [open] and [json.load] yield; the handler is
    [except (json.JSONDecodeError, IOError): continue]. *)
Fixpoint read_results (files : list (res result_file))
    (results : list result_file) : res (list result_file) :=
  match files with
  | [] => Ok results
  | Ok document :: rest => read_results rest (results ++ [document])
  | Raise JSONDecodeError :: rest => read_results rest results
  | Raise IOError :: rest => read_results rest results
  | Raise e :: _ => Raise e
  end.

(** What lies at [<project>/.claude/quiz-results]: nothing; a directory,
    given by its files [*.json] in the order of the listing; or a path that
    cannot be examined, [results_dir.exists()] itself raising. *)
Inductive results_directory : Type :=
  | NoDirectory
  | Directory (files : list (res result_file))
  | DirectoryRaises (e : exn).

(** [load_all_results]; the existence test stands before the loop and its
    [try]. *)
Definition load_all_results (results_dir : results_directory)
    : res (list result_file) :=
  match results_dir with
  | DirectoryRaises e => Raise e
  | NoDirectory => Ok []
  | Directory files => read_results files []
  end.

(** The loop [for reason, count in skip_reasons.items()] of
    [get_skip_patterns]. The keys of a dict are distinct, so the order in
    which the loop meets them does not show in the result. *)
Definition add_skip_reasons (patterns skip_reasons : gmap string Z)
    : gmap string Z :=
  map_fold (fun reason count patterns =>
              <[reason := get_or (patterns !! reason) 0 + count]> patterns)
           patterns skip_reasons.

(** [get_skip_patterns] *)
Definition get_skip_patterns (results : list result_file) : gmap string Z :=
  foldl (fun patterns result =>
           add_skip_reasons patterns (get_or (rf_skip_reasons result) ∅))
        ∅ results.

(** [sorted_list.sort(key=lambda x: x[1])], and with [reverse=True] when
    [before] is [>=]: a stable sort, written as an insertion sort that puts
    an element in front of the first one it may precede. *)
Fixpoint insert_by (before : Z -> Z -> bool) (x : string * Z)
    (l : list (string * Z)) : list (string * Z) :=
  match l with
  | [] => [x]
  | y :: rest =>
      if before x.2 y.2 then x :: y :: rest
      else y :: insert_by before x rest
  end.

Definition sort_by (before : Z -> Z -> bool) (l : list (string * Z))
    : list (string * Z) :=
  foldr (insert_by before) [] l.

Definition ascending (a b : Z) : bool := a <=? b.

Definition descending (a b : Z) : bool := b <=? a.

(** [topic.replace("_", " ")] *)
Fixpoint replace_underscores (s : string) : string :=
  match s with
  | EmptyString => EmptyString
  | String c rest =>
      String (if Ascii.eqb c "_"%char then " "%char else c) (replace_underscores rest)
  end.

(** One value of the [topic_scores] passed to the report: both keys are read
    with [.get(key, 0)]. *)
Record score_dict : Type := mk_score_dict {
  sd_correct : option Z;
  sd_total : option Z
}.

Definition score_dict_of (b : bucket) : score_dict :=
  {| sd_correct := Some (correct b); sd_total := Some (total b) |}.

(** The three lists that [generate_blind_spot_report] fills. *)
Record areas : Type := mk_areas {
  weak : list (string * Z);
  middling : list (string * Z);
  strong : list (string * Z)
}.

(** [@dataclass class BlindSpotReport] *)
Record BlindSpotReport : Type := mk_BlindSpotReport {
  weak_areas : list (string * Z);
  needs_work : list (string * Z);
  strong_areas : list (string * Z);
  skip_patterns : gmap string Z;
  suggestions : list string;
  generated_at : datetime
}.

(** The dict that [aggregate_results] returns. *)
Record aggregate : Type := mk_aggregate {
  total_quizzes : Z;
  total_questions : Z;
  total_correct : Z;
  total_skipped : Z;
  overall_score : Z
}.

Section Reports.

(** [round(correct / total * 100)]: a true division and a product of floats,
    rounded by [round] to an integer; [OverflowError] when the quotient does
    not fit a float. The reports are defined, and their properties proved, for
    whatever this yields. *)
Variable percent : Z -> Z -> res Z.

(** The loop of [generate_blind_spot_report] over [topic_scores.items()], in
    the order of the dict. [WEAK_THRESHOLD * 100] and
    [STRONG_THRESHOLD * 100] are the floats 50.0 and 70.0, with which the
    integer [pct] is compared exactly. *)
Fixpoint classify (items : list (string * score_dict)) (found : areas)
    : res areas :=
  match items with
  | [] => Ok found
  | (topic, scores) :: rest =>
      let total := get_or (sd_total scores) 0 in
      if total =? 0 then classify rest found
      else
        let correct := get_or (sd_correct scores) 0 in
        pct ← percent correct total;
        classify rest
          (if pct <? 50
           then {| weak := weak found ++ [(topic, pct)];
                   middling := middling found; strong := strong found |}
           else if pct <? 70
           then {| weak := weak found;
                   middling := middling found ++ [(topic, pct)];
                   strong := strong found |}
           else {| weak := weak found; middling := middling found;
                   strong := strong found ++ [(topic, pct)] |})
  end.

Definition weak_suggestion (area : string * Z) : string :=
  "Next session, pay extra attention when Claude discusses "
  +:+ replace_underscores area.1 +:+ ".".

(** [generate_blind_spot_report]; [clock] is the time that the dataclass
    reads for [generated_at]. *)
Definition generate_blind_spot_report (clock : datetime)
    (topic_scores : list (string * score_dict))
    (patterns : option (gmap string Z)) : res BlindSpotReport :=
  found ← classify topic_scores {| weak := []; middling := []; strong := [] |};
  let weak_areas := sort_by ascending (weak found) in
  let needs_work := sort_by ascending (middling found) in
  let strong_areas := sort_by descending (strong found) in
  let suggestions := weak_suggestion <$> take 3 weak_areas in
  let patterns := get_or patterns ∅ in
  let suggestions :=
    if 3 <=? get_or (patterns !! "time_pressure") 0
    then suggestions ++ ["Consider shorter quizzes to reduce time pressure skips."]
    else suggestions in
  Ok {| weak_areas := weak_areas;
        needs_work := needs_work;
        strong_areas := strong_areas;
        skip_patterns := patterns;
        suggestions := suggestions;
        generated_at := clock |}.

(** The sums of [aggregate_results]: questions, correct, skipped. *)
Definition add_summary (sums : Z * Z * Z) (result : result_file) : Z * Z * Z :=
  let summary := get_or (rf_summary result) (mk_result_summary None None None) in
  (sums.1.1 + get_or (rs_total summary) 0,
   sums.1.2 + get_or (rs_correct summary) 0,
   sums.2 + get_or (rs_skipped summary) 0).

(** [aggregate_results] *)
Definition aggregate_results (results : list result_file) : res aggregate :=
  match results with
  | [] => Ok {| total_quizzes := 0; total_questions := 0; total_correct := 0;
                total_skipped := 0; overall_score := 0 |}
  | _ :: _ =>
      let sums := foldl add_summary (0, 0, 0) results in
      overall_score ←
        (if 0 <? sums.1.1 then percent sums.1.2 sums.1.1 else Ok 0);
      Ok {| total_quizzes := Z.of_nat (length results);
            total_questions := sums.1.1;
            total_correct := sums.1.2;
            total_skipped := sums.2;
            overall_score := overall_score |}
  end.

End Reports.

(** ** Specification vocabulary of the reports *)

(** The skip reasons of one result document. *)
Definition skip_reasons_of (result : result_file) : gmap string Z :=
  get_or (rf_skip_reasons result) ∅.

(** Some document names the reason. *)
Definition names_reason (reason : string) (result : result_file) : Prop :=
  is_Some (skip_reasons_of result !! reason).

#[global] Instance names_reason_dec reason result :
  Decision (names_reason reason result).
Proof. unfold names_reason. apply _. Defined.

(** The counts of a reason, added over the documents that name it. *)
Definition reason_count (reason : string) (results : list result_file) : Z :=
  foldr (fun result n => get_or (skip_reasons_of result !! reason) 0 + n)
        0 results.

(** A count of the summaries, added over the documents. *)
Definition summed (field : result_summary -> option Z)
    (results : list result_file) : Z :=
  foldr (fun result n =>
           match rf_summary result with
           | Some summary => get_or (field summary) 0
           | None => 0
           end + n)
        0 results.

(** The topics that have answers, each with its percentage, in the order of
    the dict. *)
Fixpoint rated (percent : Z -> Z -> res Z) (items : list (string * score_dict))
    : res (list (string * Z)) :=
  match items with
  | [] => Ok []
  | (topic, scores) :: rest =>
      if get_or (sd_total scores) 0 =? 0 then rated percent rest
      else
        pct ← percent (get_or (sd_correct scores) 0) (get_or (sd_total scores) 0);
        later ← rated percent rest;
        Ok ((topic, pct) :: later)
  end.

(** The list is in the order [before] of the percentages. *)
Definition in_order (before : Z -> Z -> bool) (l : list (string * Z)) : Prop :=
  StronglySorted (fun a b => before a.2 b.2 = true) l.

(** All the questions of a list of result documents. *)
Definition questions_of (results : list result_doc) : list question :=
  concat ((fun result => get_or (questions result) []) <$> results).

(** The read of a result file ends in a document or in one of the two
    exceptions that [load_all_results] passes over. *)
Definition tolerated (file : res result_file) : Prop :=
  match file with
  | Ok _ => True
  | Raise JSONDecodeError => True
  | Raise IOError => True
  | Raise _ => False
  end.

(** The documents of the files that could be read, in listing order. *)
Definition readable (files : list (res result_file)) : list result_file :=
  concat ((fun file => match file with
                       | Ok document => [document]
                       | Raise _ => []
                       end) <$> files).

(** * Properties *)

(** ** Calendar arithmetic *)

Lemma valid_bounds (d : datetime) :
  valid d = true ->
  1 <= toordinal d <= MAXORDINAL /\ 0 <= hour d < 24 /\ 0 <= minute d < 60 /\
  0 <= second d < 60 /\ 0 <= microsecond d < 1000000.
Proof.
  unfold valid, valid_time. rewrite !andb_true_iff.
  rewrite !Z.leb_le, !Z.ltb_lt. lia.
Qed.

Lemma weekday_range (d : datetime) : 0 <= weekday d < 7.
Proof. unfold weekday. apply Z.mod_pos_bound. lia. Qed.

(** Adding whole days moves the date and keeps the time of day. *)
Lemma add_whole_days (now : datetime) (k : Z) :
  valid now = true ->
  0 <= k <= 7 ->
  toordinal now + k <= MAXORDINAL ->
  (delta ← timedelta_of k 0; add now delta)
  = Ok {| toordinal := toordinal now + k; hour := hour now;
          minute := minute now; second := second now;
          microsecond := microsecond now |}.
Proof.
  intros Hv Hk Hmax. apply valid_bounds in Hv.
  destruct Hv as (Ho & Hh & Hm & Hs & Hus).
  unfold timedelta_of. cbn [Z.mul]. rewrite Z.div_0_l, Z.mod_0_l by lia.
  rewrite Z.add_0_r.
  destruct (Z.leb_spec (Z.abs k) 999999999) as [_|Habs]; [|lia].
  cbn [mbind res_bind]. unfold add. cbn [td_days td_seconds td_microseconds].
  rewrite !Z.add_0_r.
  rewrite (Z.div_small (microsecond now) 1000000) by lia.
  rewrite (Z.mod_small (microsecond now) 1000000) by lia.
  rewrite Z.add_0_r.
  set (s := hour now * 3600 + minute now * 60 + second now).
  assert (Hs' : 0 <= s < 86400) by (subst s; lia).
  rewrite (Z.div_small s 86400), (Z.mod_small s 86400) by lia.
  rewrite Z.add_0_r.
  destruct (Z.ltb_spec 0 (toordinal now + k)) as [_|?]; [|lia].
  destruct (Z.leb_spec (toordinal now + k) MAXORDINAL) as [_|?]; [|lia].
  cbn [andb]. f_equal. f_equal; subst s; Z.div_mod_to_equations; lia.
Qed.

(** The number of days that the weekly policy adds. *)
Lemma days_ahead_spec (weekly_day today : Z) :
  0 <= weekly_day <= 6 -> 0 <= today < 7 ->
  let days_ahead := weekly_day - today in
  let days_ahead := if days_ahead <=? 0 then days_ahead + 7 else days_ahead in
  0 < days_ahead <= 7 /\ (today + days_ahead) mod 7 = weekly_day.
Proof.
  intros Hw Ht. cbn zeta.
  destruct (Z.leb_spec (weekly_day - today) 0); split; try lia.
  - replace (today + (weekly_day - today + 7)) with (weekly_day + 1 * 7) by lia.
    rewrite Z.mod_add by lia. apply Z.mod_small. lia.
  - replace (today + (weekly_day - today)) with weekly_day by lia.
    apply Z.mod_small. lia.
Qed.

(** ** The weekly policy *)

(** C1. Under the weekly policy, for every reading [now] of the clock and
    every configured [weekly_day] in 0..6, [schedule_quiz] returns a schedule
    whose [scheduled_for] falls on weekday [weekly_day], lies more than 0 and
    at most 7 calendar days after the date of [now], and is at 09:00:00.000.
    The reading [now] is a datetime of the library whose date is at least a
    week before the last date the library represents. *)
Theorem schedule_quiz_weekly (now clock' : datetime) (sid path : string)
    (config : option (gmap string Z)) (weekly_day : Z) :
  valid now = true ->
  toordinal now + 7 <= MAXORDINAL ->
  get_or (config_or_default config !! "weekly_day") 4 = weekly_day ->
  0 <= weekly_day <= 6 ->
  exists q,
    schedule_quiz now clock' sid WEEKLY path config = Ok q /\
    session_id q = sid /\ schedule_type q = WEEKLY /\
    weekday (scheduled_for q) = weekly_day /\
    0 < days_between (scheduled_for q) now <= 7 /\
    hour (scheduled_for q) = 9 /\ minute (scheduled_for q) = 0 /\
    second (scheduled_for q) = 0 /\ microsecond (scheduled_for q) = 0.
Proof.
  intros Hv Hmax Hcfg Hw.
  pose proof (weekday_range now) as Ht.
  pose proof (days_ahead_spec weekly_day (weekday now) Hw Ht) as Hd.
  cbn zeta in Hd.
  unfold schedule_quiz. cbn zeta. rewrite Hcfg.
  set (days_ahead := if weekly_day - weekday now <=? 0
                     then weekly_day - weekday now + 7
                     else weekly_day - weekday now) in *.
  destruct Hd as [Hrange Hmod].
  pose proof (add_whole_days now days_ahead Hv ltac:(lia) ltac:(lia)) as Hadd.
  destruct (timedelta_of days_ahead 0) as [delta|e]; [|discriminate].
  cbn [mbind res_bind] in Hadd |- *.
  rewrite Hadd. cbn.
  eexists. split; [reflexivity|]. cbn.
  unfold days_between. cbn.
  repeat split; try lia.
  unfold weekday in *. cbn.
  replace (toordinal now + days_ahead + 6)
    with ((toordinal now + 6) + days_ahead) by lia.
  rewrite <- Zplus_mod_idemp_l. exact Hmod.
Qed.

(** A Friday, 10:30:15.000250, with the default configuration (target:
    Friday): the quiz goes to the Friday of the following week. *)
Lemma schedule_quiz_weekly_witness :
  exists q,
    schedule_quiz (mk_datetime 739002 10 30 15 250) (mk_datetime 739002 10 30 15 260)
      "abc123" WEEKLY "summary.json" None = Ok q /\
    session_id q = "abc123" /\ schedule_type q = WEEKLY /\
    weekday (scheduled_for q) = 4 /\
    0 < days_between (scheduled_for q) (mk_datetime 739002 10 30 15 250) <= 7 /\
    hour (scheduled_for q) = 9 /\ minute (scheduled_for q) = 0 /\
    second (scheduled_for q) = 0 /\ microsecond (scheduled_for q) = 0.
Proof.
  apply (schedule_quiz_weekly (mk_datetime 739002 10 30 15 250)
           (mk_datetime 739002 10 30 15 260) "abc123" "summary.json" None 4).
  - reflexivity.
  - vm_compute. discriminate.
  - vm_compute. reflexivity.
  - lia.
Defined.

(** ** The order on datetimes *)

Lemma leb_refl (d : datetime) : leb d d = true.
Proof.
  unfold leb, fields. cbn [lex_leb].
  rewrite !Z.eqb_refl. cbn [andb]. rewrite !orb_true_r. reflexivity.
Qed.

(** On datetimes of the library, the field-wise comparison is the order of
    instants. *)
Lemma leb_instant (a b : datetime) :
  valid a = true -> valid b = true ->
  leb a b = true <-> instant a <= instant b.
Proof.
  intros Ha Hb. apply valid_bounds in Ha, Hb.
  unfold leb, fields, instant. cbn [lex_leb].
  rewrite !orb_true_iff, !andb_true_iff, !Z.ltb_lt, !Z.eqb_eq.
  split; [|intros Hle]; [lia|].
  destruct (Z.lt_trichotomy (toordinal a) (toordinal b)) as [?|[?|?]]; [lia| |lia].
  destruct (Z.lt_trichotomy (hour a) (hour b)) as [?|[?|?]]; [lia| |lia].
  destruct (Z.lt_trichotomy (minute a) (minute b)) as [?|[?|?]]; [lia| |lia].
  destruct (Z.lt_trichotomy (second a) (second b)) as [?|[?|?]]; [lia| |lia].
  destruct (Z.lt_trichotomy (microsecond a) (microsecond b)) as [?|[?|?]]; lia.
Qed.

(** ** The due-quiz resolver *)

Lemma due_loop_filter (now : datetime) (pending due : list quiz_dict) :
  Forall (fun q => is_Some (timestamp q)) pending ->
  due_loop now pending due = Ok (due ++ filter (fun q => is_due now q) pending).
Proof.
  intros Hall. revert due.
  induction Hall as [|q rest [d Hd] _ IH]; intros due.
  - cbn. rewrite app_nil_r. reflexivity.
  - cbn [due_loop]. unfold is_due at 1.
    rewrite filter_cons. unfold is_due at 1. rewrite Hd.
    unfold timestamp in Hd.
    destruct (qd_scheduled_for q) as [[d'|s]|]; try discriminate.
    injection Hd as ->. cbn [subscript fromisoformat mbind res_bind].
    rewrite IH. destruct (leb d now); cbn.
    + rewrite decide_True by exact I. rewrite <- app_assoc. reflexivity.
    + rewrite decide_False by (intros []). reflexivity.
Qed.

(** The resolver raises exactly when some stored schedule has no readable
    timestamp. *)
Lemma due_loop_returns (now : datetime) (pending due : list quiz_dict) :
  returns (due_loop now pending due) <->
  Forall (fun q => is_Some (timestamp q)) pending.
Proof.
  split.
  - revert due. induction pending as [|q rest IH]; intros due [l Hl]; [constructor|].
    cbn [due_loop] in Hl. unfold timestamp.
    destruct (qd_scheduled_for q) as [[d|s]|] eqn:Hq; cbn in Hl; try discriminate.
    constructor.
    + rewrite Hq. eexists; reflexivity.
    + eapply IH. eexists; exact Hl.
  - intros Hall. rewrite due_loop_filter by exact Hall. eexists; reflexivity.
Qed.

(** C2. [get_due_quizzes] returns exactly the entries of [pending_quizzes]
    whose [scheduled_for] is less than or equal to the current time, an entry
    scheduled for exactly now included and one scheduled after now excluded,
    in the order they have in [pending_quizzes]. The entries are stored
    schedules: each carries the ISO text of its timestamp. *)
Theorem get_due_quizzes_exact {R : Type} (now : datetime) (st : state R) :
  let pending := get_or (pending_quizzes st) [] in
  Forall (fun q => is_Some (timestamp q)) pending ->
  exists due,
    get_due_quizzes now st = Ok due /\
    due = filter (fun q => is_due now q) pending /\
    sublist due pending /\
    (forall q d, q ∈ pending -> timestamp q = Some d ->
       (q ∈ due <-> leb d now = true)) /\
    (forall q, q ∈ pending -> timestamp q = Some now -> q ∈ due).
Proof.
  intros pending Hall.
  exists (filter (fun q => is_due now q) pending).
  assert (Hmem : forall q d, q ∈ pending -> timestamp q = Some d ->
            (q ∈ filter (fun q => is_due now q) pending <-> leb d now = true)).
  { intros q d Hin Hd. rewrite list_elem_of_filter. unfold is_due. rewrite Hd.
    rewrite Is_true_true. tauto. }
  repeat split.
  - unfold get_due_quizzes. fold pending.
    rewrite due_loop_filter by exact Hall. reflexivity.
  - apply sublist_filter.
  - apply Hmem; assumption.
  - apply Hmem; assumption.
  - intros q Hin Hd. apply (Hmem q now Hin Hd). apply leb_refl.
Qed.

(** A quiz two hours overdue, one due at this very instant and one due
    tomorrow: the first two are returned, in that order. *)
Lemma get_due_quizzes_exact_witness :
  let now := mk_datetime 739002 10 30 15 250 in
  let quiz sid d := mk_quiz_dict (Some sid) (Some "same_day") (Some (IsoText d))
                      (Some "summary.json") None in
  let pending := [quiz "a" (mk_datetime 739002 8 30 15 250);
                  quiz "b" (mk_datetime 739003 10 30 15 250);
                  quiz "c" now] in
  exists due,
    get_due_quizzes now (mk_state (R := unit) None None (Some pending) None None)
      = Ok due /\
    due = filter (fun q => is_due now q) pending /\
    sublist due pending /\
    (forall q d, q ∈ pending -> timestamp q = Some d ->
       (q ∈ due <-> leb d now = true)) /\
    (forall q, q ∈ pending -> timestamp q = Some now -> q ∈ due).
Proof.
  intros now quiz pending.
  apply (get_due_quizzes_exact (R := unit) now
           (mk_state None None (Some pending) None None)).
  cbn. repeat constructor; eexists; reflexivity.
Defined.

(** ** The pending-to-completed transition *)

Lemma others_filter (sid : string) (pending : list quiz_dict) :
  Forall (fun q => is_Some (qd_session_id q)) pending ->
  others sid pending = Ok (filter (fun q => ~ belongs_to sid q) pending).
Proof.
  induction 1 as [|q rest [s Hs] _ IH]; [reflexivity|].
  cbn [others]. rewrite Hs, IH. cbn [subscript mbind res_bind].
  rewrite filter_cons.
  destruct (decide (s ≠ sid)) as [Hne|Heq].
  - rewrite decide_True; [reflexivity|].
    unfold belongs_to. rewrite Hs. congruence.
  - rewrite decide_False; [reflexivity|].
    unfold belongs_to. rewrite Hs. intros Hn. apply Heq. congruence.
Qed.

(** The comprehension raises exactly when some entry has no session id. *)
Lemma others_returns (sid : string) (pending : list quiz_dict) :
  returns (others sid pending) <->
  Forall (fun q => is_Some (qd_session_id q)) pending.
Proof.
  split.
  - induction pending as [|p rest IH]; intros [kept Hk]; [constructor|].
    cbn [others] in Hk.
    destruct (qd_session_id p) as [s|] eqn:Hp; [|discriminate].
    cbn [subscript mbind res_bind] in Hk.
    destruct (others sid rest) as [kept'|]; [|discriminate].
    constructor; [rewrite Hp; eexists; reflexivity|].
    apply IH. eexists; reflexivity.
  - intros Hall. rewrite others_filter by exact Hall. eexists; reflexivity.
Qed.

Lemma get_due_quizzes_pending {R : Type} (now : datetime) (st : state R)
    (due : list quiz_dict) :
  get_due_quizzes now st = Ok due ->
  forall q, q ∈ due -> q ∈ get_or (pending_quizzes st) [].
Proof.
  unfold get_due_quizzes. intros Hdue q Hq.
  assert (Hall : Forall (fun q => is_Some (timestamp q))
                   (get_or (pending_quizzes st) [])).
  { apply (due_loop_returns now _ []). eexists; exact Hdue. }
  rewrite due_loop_filter in Hdue by exact Hall.
  injection Hdue as <-. cbn [app] in Hq.
  apply list_elem_of_filter in Hq. tauto.
Qed.

(** Every operation keeps the completion records it finds, in place, and
    puts into [pending_quizzes] nothing but the schedule it is given. *)
Lemma run_history {R : Type} (op : operation R) (s s' : state R) :
  run s op = Ok s' ->
  get_or (completed_quizzes s) [] `prefix_of` get_or (completed_quizzes s') [] /\
  forall q, q ∈ get_or (pending_quizzes s') [] ->
    q ∈ get_or (pending_quizzes s) [] \/
    exists schedule, op = AddPending schedule /\ q = to_dict schedule.
Proof.
  destruct op as [schedule|now sid result|result]; cbn [run].
  - unfold add_pending_quiz.
    destruct (pending_quizzes s) as [pending|] eqn:Hp; [|discriminate].
    cbn. intros [= <-]. cbn. split; [reflexivity|].
    intros q Hq. apply elem_of_app in Hq as [Hq|Hq]; [left; exact Hq|].
    right. exists schedule. apply list_elem_of_singleton in Hq. auto.
  - unfold mark_quiz_completed.
    destruct (pending_quizzes s) as [pending|] eqn:Hp; [|discriminate].
    cbn [subscript mbind res_bind].
    destruct (others sid pending) as [kept|e] eqn:Hk; [|discriminate].
    cbn [subscript mbind res_bind set_pending_quizzes completed_quizzes].
    destruct (completed_quizzes s) as [completed|]; [|discriminate].
    cbn. intros [= <-]. cbn. split; [apply prefix_app_r; reflexivity|].
    intros q Hq. left.
    assert (Hall : Forall (fun q => is_Some (qd_session_id q)) pending).
    { apply (others_returns sid). eexists; exact Hk. }
    rewrite others_filter in Hk by exact Hall. injection Hk as <-.
    apply list_elem_of_filter in Hq. tauto.
  - intros [= <-]. unfold merge_result_into_state.
    set (s0 := match topic_scores s with
               | Some _ => s
               | None => set_topic_scores s ∅
               end).
    assert (H0 : completed_quizzes s0 = completed_quizzes s /\
                 pending_quizzes s0 = pending_quizzes s).
    { subst s0. destruct (topic_scores s); auto. }
    clearbody s0. destruct H0 as [Hc Hp]. rewrite <- Hc, <- Hp. clear Hc Hp.
    generalize (get_or (questions result) []). intros qs. revert s0.
    assert (Htally : forall (st : state R) key b,
              completed_quizzes (state_tally st key b) = completed_quizzes st /\
              pending_quizzes (state_tally st key b) = pending_quizzes st).
    { intros st key b. unfold state_tally.
      destruct (get_or (topic_scores st) ∅ !! key); destruct b; auto. }
    assert (Hq : forall (st : state R) question,
              completed_quizzes (merge_question st question) = completed_quizzes st /\
              pending_quizzes (merge_question st question) = pending_quizzes st).
    { intros st question. unfold merge_question.
      generalize (get_or (q_tags question) []). intros tags.
      generalize (get_or (q_correct question) false). intros b.
      destruct (Htally st (get_or (q_type question) "unknown") b) as [<- <-].
      generalize (state_tally st (get_or (q_type question) "unknown") b).
      induction tags as [|tag tags IH]; intros st'; [auto|].
      cbn [foldl]. destruct (Htally st' tag b) as [<- <-]. apply IH. }
    induction qs as [|question qs IH]; intros s0; cbn [foldl].
    + split; [reflexivity|auto].
    + destruct (Hq s0 question) as [<- <-]. apply IH.
Qed.

(** C3. [mark_quiz_completed] removes every pending entry of the session,
    duplicates included, and appends exactly one completion record carrying the
    session id, the time of completion and the result; afterwards the session
    is in neither the pending list nor any list of due quizzes, and no
    operation takes a completion record away or puts into the pending list
    anything but the schedule it is handed. *)
Theorem mark_quiz_completed_transition {R : Type} (now : datetime)
    (st : state R) (sid : string) (result : R)
    (pending : list quiz_dict) (completed : list (completion R)) :
  pending_quizzes st = Some pending ->
  completed_quizzes st = Some completed ->
  Forall (fun q => is_Some (qd_session_id q)) pending ->
  exists st',
    mark_quiz_completed now st sid result = Ok st' /\
    pending_quizzes st' = Some (filter (fun q => ~ belongs_to sid q) pending) /\
    completed_quizzes st'
      = Some (completed ++ [mk_completion sid (isoformat now) result]) /\
    project st' = project st /\ sessions st' = sessions st /\
    topic_scores st' = topic_scores st /\
    (forall q, q ∈ get_or (pending_quizzes st') [] -> ~ belongs_to sid q) /\
    (forall now' due, get_due_quizzes now' st' = Ok due ->
       forall q, q ∈ due -> ~ belongs_to sid q) /\
    (Forall (fun q => is_Some (timestamp q)) pending ->
       forall now', returns (get_due_quizzes now' st')) /\
    (forall (op : operation R) (s s' : state R), run s op = Ok s' ->
       get_or (completed_quizzes s) [] `prefix_of` get_or (completed_quizzes s') [] /\
       forall q, q ∈ get_or (pending_quizzes s') [] ->
         q ∈ get_or (pending_quizzes s) [] \/
         exists schedule, op = AddPending schedule /\ q = to_dict schedule).
Proof.
  intros Hp Hc Hall.
  unfold mark_quiz_completed. rewrite Hp. cbn [subscript mbind res_bind].
  rewrite others_filter by exact Hall.
  cbn [mbind res_bind set_pending_quizzes completed_quizzes]. rewrite Hc.
  cbn [subscript mbind res_bind]. eexists. split; [reflexivity|].
  cbn [set_completed_quizzes set_pending_quizzes pending_quizzes
       completed_quizzes project sessions topic_scores get_or].
  assert (Hgone : forall q,
            q ∈ filter (fun q => ~ belongs_to sid q) pending -> ~ belongs_to sid q).
  { intros q Hq. apply list_elem_of_filter in Hq. tauto. }
  repeat split; try reflexivity.
  - exact Hgone.
  - intros now' due Hdue q Hq. apply Hgone.
    apply (get_due_quizzes_pending now' _ due Hdue q Hq).
  - intros Hts now'. unfold get_due_quizzes. cbn [pending_quizzes get_or].
    apply due_loop_returns.
    apply Forall_forall. intros q Hq. apply list_elem_of_filter in Hq.
    destruct Hq as [_ Hq]. revert q Hq. apply Forall_forall. exact Hts.
  - apply (run_history op s s' H).
  - apply (run_history op s s' H).
Qed.

(** A session scheduled twice, next to another session: both of its
    entries go, the other stays, one completion record is appended. *)
Lemma mark_quiz_completed_transition_witness :
  let now := mk_datetime 739002 10 30 15 250 in
  let quiz sid := mk_quiz_dict (Some sid) (Some "on_demand") (Some (IsoText now))
                    (Some "summary.json") None in
  let pending := [quiz "a"; quiz "b"; quiz "a"] in
  let completed := [mk_completion "z" (IsoText now) 3] in
  let st := mk_state (Some "demo") (Some []) (Some pending) (Some completed) None in
  exists st',
    mark_quiz_completed now st "a" 7 = Ok st' /\
    pending_quizzes st' = Some (filter (fun q => ~ belongs_to "a" q) pending) /\
    completed_quizzes st'
      = Some (completed ++ [mk_completion "a" (isoformat now) 7]) /\
    project st' = project st /\ sessions st' = sessions st /\
    topic_scores st' = topic_scores st /\
    (forall q, q ∈ get_or (pending_quizzes st') [] -> ~ belongs_to "a" q) /\
    (forall now' due, get_due_quizzes now' st' = Ok due ->
       forall q, q ∈ due -> ~ belongs_to "a" q) /\
    (Forall (fun q => is_Some (timestamp q)) pending ->
       forall now', returns (get_due_quizzes now' st')) /\
    (forall (op : operation Z) (s s' : state Z), run s op = Ok s' ->
       get_or (completed_quizzes s) [] `prefix_of` get_or (completed_quizzes s') [] /\
       forall q, q ∈ get_or (pending_quizzes s') [] ->
         q ∈ get_or (pending_quizzes s) [] \/
         exists schedule, op = AddPending schedule /\ q = to_dict schedule).
Proof.
  intros now quiz pending completed st.
  apply (mark_quiz_completed_transition now st "a" 7 pending completed).
  - reflexivity.
  - reflexivity.
  - repeat constructor; eexists; reflexivity.
Defined.

(** ** Accumulation of topic scores *)

Lemma credited_credited (found : option bucket) (n1 m1 n2 m2 : Z) :
  0 <= n1 -> 0 <= n2 -> (n1 = 0 -> m1 = 0) -> (n2 = 0 -> m2 = 0) ->
  credited (credited found n1 m1) n2 m2 = credited found (n1 + n2) (m1 + m2).
Proof.
  intros H1 H2 Hm1 Hm2. unfold credited.
  destruct (decide (n1 = 0)) as [->|Hn1]; destruct (decide (n2 = 0)) as [->|Hn2];
    cbn [get_or correct total].
  - rewrite decide_True by lia. reflexivity.
  - rewrite Hm1 by reflexivity. rewrite decide_False by lia.
    rewrite !Z.add_0_l. reflexivity.
  - rewrite Hm2 by reflexivity. rewrite decide_False by lia.
    rewrite !Z.add_0_r. reflexivity.
  - rewrite decide_False by lia. do 2 f_equal; lia.
Qed.

Lemma credited_none (found : option bucket) : credited found 0 0 = found.
Proof. reflexivity. Qed.

(** One round of the three statements, read at any key. *)
Lemma tally_lookup (scores : gmap string bucket) (key k : string) (c : bool) :
  tally scores key c !! k
  = credited (scores !! k)
      (if decide (key = k) then 1 else 0)
      (if decide (key = k) then (if c then 1 else 0) else 0).
Proof.
  unfold tally, credited.
  destruct (decide (key = k)) as [->|Hne].
  - rewrite decide_False by lia.
    destruct (scores !! k) as [b|] eqn:Hk; destruct c;
      rewrite ?lookup_alter, ?lookup_insert, ?Hk, ?decide_True by reflexivity;
      cbn; rewrite ?Z.add_0_r; reflexivity.
  - rewrite decide_True by reflexivity.
    destruct (scores !! key) as [b|] eqn:Hk; destruct c;
      rewrite ?lookup_alter, ?lookup_insert, ?decide_False by exact Hne;
      reflexivity.
Qed.

Lemma tag_count_nonneg (key : string) (tags : list string) : 0 <= tag_count key tags.
Proof. unfold tag_count. lia. Qed.

Lemma tag_count_cons (key tag : string) (tags : list string) :
  tag_count key (tag :: tags)
  = (if decide (tag = key) then 1 else 0) + tag_count key tags.
Proof.
  unfold tag_count. rewrite filter_cons.
  destruct (decide (tag = key)); cbn [length]; lia.
Qed.

(** The loop over the tags of one question. *)
Lemma tally_tags_lookup (tags : list string) (scores : gmap string bucket)
    (k : string) (c : bool) :
  foldl (fun scores tag => tally scores tag c) scores tags !! k
  = credited (scores !! k) (tag_count k tags)
      (if c then tag_count k tags else 0).
Proof.
  revert scores. induction tags as [|tag tags IH]; intros scores.
  - cbn [foldl]. destruct c; reflexivity.
  - cbn [foldl]. rewrite IH, tally_lookup, tag_count_cons.
    pose proof (tag_count_nonneg k tags).
    rewrite credited_credited.
    + destruct (decide (tag = k)); destruct c; reflexivity.
    + destruct (decide (tag = k)); lia.
    + lia.
    + destruct (decide (tag = k)); [lia|reflexivity].
    + destruct c; auto.
Qed.

Lemma mentions_nonneg (key : string) (question : question) :
  0 <= mentions key question.
Proof.
  unfold mentions.
  pose proof (tag_count_nonneg key (get_or (q_tags question) [])).
  destruct (decide _); lia.
Qed.

(** The body of the loop over the questions. *)
Lemma tally_question_lookup (scores : gmap string bucket) (question : question)
    (k : string) :
  tally_question scores question !! k
  = credited (scores !! k) (mentions k question)
      (if get_or (q_correct question) false then mentions k question else 0).
Proof.
  unfold tally_question, mentions.
  rewrite tally_tags_lookup, tally_lookup.
  pose proof (tag_count_nonneg k (get_or (q_tags question) [])).
  rewrite credited_credited.
  - destruct (decide _); destruct (get_or (q_correct question) false); reflexivity.
  - destruct (decide _); lia.
  - lia.
  - destruct (decide _); [lia|reflexivity].
  - destruct (get_or (q_correct question) false); auto.
Qed.

Lemma hits_bounds (key : string) (questions : list question) :
  0 <= correct_hits key questions <= hits key questions.
Proof.
  induction questions as [|question questions IH]; cbn [hits correct_hits foldr].
  - lia.
  - fold (hits key questions). fold (correct_hits key questions).
    pose proof (mentions_nonneg key question).
    destruct (get_or (q_correct question) false); lia.
Qed.

(** The loop over the questions of one result document. *)
Lemma tally_questions_lookup (questions : list question)
    (scores : gmap string bucket) (k : string) :
  foldl tally_question scores questions !! k
  = credited (scores !! k) (hits k questions) (correct_hits k questions).
Proof.
  revert scores. induction questions as [|question questions IH]; intros scores.
  - reflexivity.
  - cbn [foldl hits correct_hits foldr].
    fold (hits k questions). fold (correct_hits k questions).
    rewrite IH, tally_question_lookup.
    pose proof (mentions_nonneg k question).
    pose proof (hits_bounds k questions).
    rewrite credited_credited; try lia; [reflexivity|].
    destruct (get_or (q_correct question) false); auto.
Qed.

(** [merge_result_into_state] works on the dict under [topic_scores] as
    [calculate_topic_scores] works on its local dict. *)
Lemma state_tally_scores {R : Type} (st : state R) (key : string) (c : bool) :
  state_tally st key c
  = set_topic_scores st (tally (get_or (topic_scores st) ∅) key c).
Proof.
  unfold state_tally, tally.
  destruct (get_or (topic_scores st) ∅ !! key); destruct c; reflexivity.
Qed.

Lemma merge_question_scores {R : Type} (st : state R) (question : question) :
  merge_question st question
  = set_topic_scores st (tally_question (get_or (topic_scores st) ∅) question).
Proof.
  unfold merge_question, tally_question.
  generalize (get_or (q_correct question) false). intros c.
  rewrite state_tally_scores.
  generalize (tally (get_or (topic_scores st) ∅)
                (get_or (q_type question) "unknown") c). intros scores.
  generalize (get_or (q_tags question) []). intros tags. revert scores.
  induction tags as [|tag tags IH]; intros scores; [reflexivity|].
  cbn [foldl]. rewrite state_tally_scores. cbn. apply IH.
Qed.

Lemma merge_result_into_state_scores {R : Type} (st : state R) (result : result_doc) :
  merge_result_into_state st result
  = set_topic_scores st
      (foldl tally_question (get_or (topic_scores st) ∅)
         (get_or (questions result) [])).
Proof.
  unfold merge_result_into_state.
  generalize (get_or (questions result) []). intros qs.
  assert (Hfold : forall (s : state R),
            foldl merge_question s qs
            = set_topic_scores s
                (foldl tally_question (get_or (topic_scores s) ∅) qs) \/ qs = []).
  { induction qs as [|q qs IH]; intros s; [right; reflexivity|left].
    cbn [foldl]. rewrite merge_question_scores.
    destruct (IH (set_topic_scores s
                    (tally_question (get_or (topic_scores s) ∅) q)))
      as [->| ->]; reflexivity. }
  destruct (topic_scores st) as [scores|] eqn:Hs.
  - destruct (Hfold st) as [->| ->]; rewrite ?Hs; [reflexivity|].
    cbn [foldl]. destruct st as [p ss pq cq ts]. cbn in Hs. subst ts. reflexivity.
  - destruct (Hfold (set_topic_scores st ∅)) as [->| ->]; reflexivity.
Qed.

(** C4. For each question of the result, [merge_result_into_state] adds 1 to
    [total] of the bucket of its type, and 1 to [correct] when the question is
    flagged correct, and does the same for each string of its tag list,
    creating a missing bucket as [{correct: 0, total: 0}]: under any key, the
    counters grow by the number of times the questions name the key, a key
    that no question names is left as it was, and nothing else in the state
    changes. Merging [{type: A, correct: true}] and then
    [{type: A, correct: false}] into an empty state gives
    [topic_scores[A] == {correct: 1, total: 2}]. *)
Theorem merge_result_into_state_counts {R : Type} (st : state R)
    (result : result_doc) (key : string) :
  let before := get_or (topic_scores st) ∅ in
  let asked := get_or (questions result) [] in
  let st' := merge_result_into_state st result in
  (exists after,
     topic_scores st' = Some after /\
     (hits key asked = 0 -> after !! key = before !! key) /\
     (0 < hits key asked ->
        after !! key
        = Some {| correct := correct (get_or (before !! key) zero_bucket)
                             + correct_hits key asked;
                  total := total (get_or (before !! key) zero_bucket)
                           + hits key asked |})) /\
  0 <= correct_hits key asked <= hits key asked /\
  (forall q,
     hits key [q] = mentions key q /\
     correct_hits key [q]
     = if get_or (q_correct q) false then mentions key q else 0) /\
  project st' = project st /\ sessions st' = sessions st /\
  pending_quizzes st' = pending_quizzes st /\
  completed_quizzes st' = completed_quizzes st /\
  (forall (A : string) (tags : option (list string)),
     get_or tags [] = [] ->
     let answer c := mk_result_doc None (Some [mk_question (Some A) (Some c) tags]) in
     let empty scores := mk_state (R := R) None None None None scores in
     forall scores, scores = None \/ scores = Some ∅ ->
       get_or (topic_scores
                 (merge_result_into_state
                    (merge_result_into_state (empty scores) (answer true))
                    (answer false))) ∅ !! A
       = Some {| correct := 1; total := 2 |}).
Proof.
  intros before asked st'. subst st'.
  rewrite merge_result_into_state_scores.
  cbn [set_topic_scores topic_scores project sessions pending_quizzes
       completed_quizzes].
  split_and!; try reflexivity.
  - eexists. split; [reflexivity|].
    rewrite tally_questions_lookup. fold before asked. unfold credited.
    split; intros Hhits.
    + rewrite decide_True by exact Hhits. reflexivity.
    + rewrite decide_False by lia. reflexivity.
  - apply hits_bounds.
  - apply hits_bounds.
  - intros q. cbn. split; [lia|].
    destruct (get_or (q_correct q) false); lia.
  - intros A tags Htags scores Hscores.
    rewrite !merge_result_into_state_scores.
    cbn [set_topic_scores topic_scores get_or questions].
    rewrite !tally_questions_lookup.
    assert (Hm : forall c, mentions A (mk_question (Some A) (Some c) tags) = 1).
    { intros c. unfold mentions. cbn [q_type q_tags get_or]. rewrite Htags.
      rewrite decide_True by reflexivity. reflexivity. }
    cbn [hits correct_hits foldr q_correct get_or]. rewrite !Hm.
    rewrite credited_credited by lia.
    assert (Hnone : get_or scores ∅ !! A = None).
    { destruct Hscores as [-> | ->]; reflexivity. }
    rewrite Hnone. reflexivity.
Qed.

(** The scenario of the specification: one question of type "debugging",
    answered correctly, tagged "docker" and "logs", merged into an empty
    state. *)
Example merge_debugging_docker_logs :
  let result := mk_result_doc None
                  (Some [mk_question (Some "debugging") (Some true)
                           (Some ["docker"; "logs"])]) in
  topic_scores (merge_result_into_state
                  (mk_state (R := unit) None None None None None) result)
  = Some (<["debugging" := mk_bucket 1 1]>
          (<["docker" := mk_bucket 1 1]>
          (<["logs" := mk_bucket 1 1]> ∅))).
Proof. vm_compute. reflexivity. Qed.

(** ** Recomputation against incremental merge *)

Lemma merge_results_scores {R : Type} (results : list result_doc)
    (st : state R) (scores : gmap string bucket) :
  topic_scores st = Some scores ->
  topic_scores (foldl merge_result_into_state st results)
  = Some (foldl (fun scores result =>
                   foldl tally_question scores (get_or (questions result) []))
                scores results).
Proof.
  revert st scores. induction results as [|result results IH];
    intros st scores Hs; [exact Hs|].
  cbn [foldl]. apply IH.
  rewrite merge_result_into_state_scores, Hs. reflexivity.
Qed.

(** C7. For every list of result documents, [calculate_topic_scores] gives
    the [topic_scores] that folding [merge_result_into_state] over the same
    documents leaves in a state that started with empty [topic_scores]. *)
Theorem calculate_topic_scores_is_merge_fold {R : Type}
    (results : list result_doc) (name : option string)
    (known : option (list string)) (pending : option (list quiz_dict))
    (completed : option (list (completion R))) :
  topic_scores
    (foldl merge_result_into_state
       (mk_state name known pending completed (Some ∅)) results)
  = Some (calculate_topic_scores results).
Proof. apply merge_results_scores. reflexivity. Qed.

(** A state that has no [topic_scores] yet gets the same scores as soon as
    one document is merged. *)
Lemma merge_fold_from_fresh_state {R : Type}
    (result : result_doc) (results : list result_doc) (st : state R) :
  topic_scores st = None ->
  topic_scores (foldl merge_result_into_state st (result :: results))
  = Some (calculate_topic_scores (result :: results)).
Proof.
  intros Hs. cbn [foldl]. unfold calculate_topic_scores. cbn [foldl].
  apply merge_results_scores.
  rewrite merge_result_into_state_scores, Hs. reflexivity.
Qed.

(** ** Monotone counters *)

Lemma credited_monotone (found : option bucket) (n m : Z) (b' : bucket) :
  0 <= m <= n ->
  credited found n m = Some b' ->
  (forall b, found = Some b -> correct b <= correct b' /\ total b <= total b') /\
  (match found with
   | Some b => consistent b
   | None => True
   end -> consistent b').
Proof.
  intros Hm. unfold credited, consistent.
  destruct (decide (n = 0)) as [->|Hn].
  - intros ->. split; [intros b [= ->]; lia|auto].
  - intros [= <-]. cbn [correct total]. split.
    + intros b ->. cbn [get_or]. lia.
    + destruct found as [b|]; cbn [get_or zero_bucket correct total]; lia.
Qed.

(** C9, as the code has it. Under every key, the bucket found after
    [merge_result_into_state] has [correct] and [total] at least as large as
    before, and a bucket present before is still present; a bucket that the
    merge leaves satisfies [0 <= correct <= total] whenever it was absent
    before or satisfied it before. *)
Theorem merge_result_into_state_monotone {R : Type} (st : state R)
    (result : result_doc) (key : string) :
  let before := get_or (topic_scores st) ∅ in
  let after := get_or (topic_scores (merge_result_into_state st result)) ∅ in
  (forall b, before !! key = Some b ->
     exists b', after !! key = Some b' /\
                correct b <= correct b' /\ total b <= total b') /\
  (forall b', after !! key = Some b' ->
     match before !! key with
     | Some b => consistent b
     | None => True
     end -> consistent b').
Proof.
  cbn zeta. rewrite merge_result_into_state_scores.
  cbn [set_topic_scores topic_scores get_or].
  rewrite tally_questions_lookup.
  pose proof (hits_bounds key (get_or (questions result) [])) as Hb.
  split.
  - intros b Hfound.
    destruct (credited (get_or (topic_scores st) ∅ !! key)
                (hits key (get_or (questions result) []))
                (correct_hits key (get_or (questions result) []))) as [b'|] eqn:Hc.
    + exists b'. split; [reflexivity|].
      destruct (credited_monotone _ _ _ _ Hb Hc) as [Hmono _]. auto.
    + unfold credited in Hc. rewrite Hfound in Hc.
      destruct (decide _); discriminate.
  - intros b' Hafter. apply (credited_monotone _ _ _ _ Hb Hafter).
Qed.

(** Against C9 as it is worded ("every bucket the operation writes
    satisfies 0 <= correct <= total", for every state): a state whose bucket
    for "A" holds [{correct: 5, total: 2}], and one correct answer of type
    "A"; the merge writes [{correct: 6, total: 3}], in which [correct]
    exceeds [total]. *)
Lemma merge_result_into_state_writes_inconsistent :
  let st := mk_state (R := unit) None None None None
              (Some (<["A" := mk_bucket 5 2]> ∅)) in
  let result := mk_result_doc None
                  (Some [mk_question (Some "A") (Some true) (Some [])]) in
  get_or (topic_scores (merge_result_into_state st result)) ∅ !! "A"
  = Some (mk_bucket 6 3) /\
  ~ (0 <= correct (mk_bucket 6 3) <= total (mk_bucket 6 3)).
Proof.
  split; [vm_compute; reflexivity|]. cbn. lia.
Qed.

(** ** Eligibility *)

Lemma default_thresholds (config : option (gmap string Z)) :
  config = None \/ config = Some DEFAULT_CONFIG ->
  get_or (config_or_default config !! "min_session_minutes") 15 = 15 /\
  get_or (config_or_default config !! "min_activities") 5 = 5.
Proof.
  intros [-> | ->]; cbn [config_or_default].
  - split; reflexivity.
  - destruct (decide (DEFAULT_CONFIG = ∅)); split; reflexivity.
Qed.

Lemma should_schedule_quiz_thresholds (s : summary)
    (config : option (gmap string Z)) :
  config = None \/ config = Some DEFAULT_CONFIG ->
  should_schedule_quiz s config
  = negb ((get_or (duration_minutes s) 0 <? 15)
          || (get_or (get_or (stats s) ∅ !! "total_activities") 0 <? 5)).
Proof.
  intros Hc. destruct (default_thresholds config Hc) as [Hm Ha].
  unfold should_schedule_quiz. cbn zeta. rewrite Hm, Ha.
  destruct (_ <? 15); [reflexivity|]. destruct (_ <? 5); reflexivity.
Qed.

(** C5. With the default configuration, left out or passed as it is,
    [should_schedule_quiz] returns false if and only if the session lasted
    less than 15 minutes or recorded fewer than 5 activities, and true
    otherwise; exactly 15 minutes and exactly 5 activities give true. *)
Theorem should_schedule_quiz_default (s : summary) :
  let duration := get_or (duration_minutes s) 0 in
  let activities := get_or (get_or (stats s) ∅ !! "total_activities") 0 in
  (should_schedule_quiz s None = false <-> duration < 15 \/ activities < 5) /\
  (should_schedule_quiz s None = true <-> 15 <= duration /\ 5 <= activities) /\
  should_schedule_quiz s (Some DEFAULT_CONFIG) = should_schedule_quiz s None /\
  (forall other : gmap string Z,
     should_schedule_quiz
       (mk_summary (Some 15) (Some (<["total_activities" := 5]> other))) None
     = true).
Proof.
  cbn zeta.
  rewrite !should_schedule_quiz_thresholds by auto.
  split_and!.
  - rewrite negb_false_iff, orb_true_iff, !Z.ltb_lt. reflexivity.
  - rewrite negb_true_iff, orb_false_iff, !Z.ltb_ge. reflexivity.
  - reflexivity.
  - intros other. rewrite should_schedule_quiz_thresholds by auto.
    cbn [duration_minutes stats get_or]. rewrite lookup_insert_eq. reflexivity.
Qed.

(** A summary with every value the scheduler reads, absent ones as 0. *)
Lemma should_schedule_quiz_zero_filled (s : summary)
    (config : option (gmap string Z)) :
  should_schedule_quiz s config
  = should_schedule_quiz
      (mk_summary (Some (get_or (duration_minutes s) 0))
         (Some (<["total_activities" :=
                    get_or (get_or (stats s) ∅ !! "total_activities") 0]>
                  (get_or (stats s) ∅))))
      config.
Proof.
  unfold should_schedule_quiz. cbn [duration_minutes stats get_or].
  rewrite lookup_insert_eq. reflexivity.
Qed.

(** C10. A summary without [duration_minutes], without [stats], or whose
    [stats] has no [total_activities], is read as if the missing value were
    0, and so is not eligible under the default configuration; the empty
    summary is not eligible. *)
Theorem should_schedule_quiz_missing (s : summary)
    (config : option (gmap string Z)) :
  duration_minutes s = None \/ stats s = None \/
  (exists m, stats s = Some m /\ m !! "total_activities" = None) ->
  config = None \/ config = Some DEFAULT_CONFIG ->
  should_schedule_quiz s config = false /\
  (forall any,
     should_schedule_quiz s any
     = should_schedule_quiz
         (mk_summary (Some (get_or (duration_minutes s) 0))
            (Some (<["total_activities" :=
                       get_or (get_or (stats s) ∅ !! "total_activities") 0]>
                     (get_or (stats s) ∅))))
         any) /\
  should_schedule_quiz (mk_summary None None) config = false.
Proof.
  intros Hmiss Hc. split_and!.
  - rewrite should_schedule_quiz_thresholds by exact Hc.
    destruct Hmiss as [-> | [-> | (m & -> & Hm)]]; cbn [get_or].
    + reflexivity.
    + rewrite lookup_empty. cbn [get_or]. rewrite orb_true_r. reflexivity.
    + rewrite Hm. cbn [get_or]. rewrite orb_true_r. reflexivity.
  - intros any. apply should_schedule_quiz_zero_filled.
  - rewrite should_schedule_quiz_thresholds by exact Hc. reflexivity.
Qed.

(** A two-hour session whose statistics carry no activity count. *)
Lemma should_schedule_quiz_missing_witness :
  let s := mk_summary (Some 120) (Some (<["files_touched" := 40]> ∅)) in
  should_schedule_quiz s None = false /\
  (forall any,
     should_schedule_quiz s any
     = should_schedule_quiz
         (mk_summary (Some (get_or (duration_minutes s) 0))
            (Some (<["total_activities" :=
                       get_or (get_or (stats s) ∅ !! "total_activities") 0]>
                     (get_or (stats s) ∅))))
         any) /\
  should_schedule_quiz (mk_summary None None) None = false.
Proof.
  intros s.
  apply (should_schedule_quiz_missing s None).
  - right. right. exists (<["files_touched" := 40]> ∅).
    split; [reflexivity|]. vm_compute. reflexivity.
  - left. reflexivity.
Defined.

(** ** Loading the state document *)

(** Exceptions other than the two that the handler names leave
    [load_quiz_state] as they were raised. *)
Lemma load_quiz_state_propagates {R : Type} (name : string) (e : exn) :
  e <> JSONDecodeError -> e <> IOError ->
  load_quiz_state (R := R) name (Present (Raise e)) = Raise e.
Proof. intros H1 H2. destruct e; cbn; congruence. Qed.

Lemma load_quiz_state_document {R : Type} (name : string) (document : state R) :
  load_quiz_state name (Present (Ok document)) = Ok document.
Proof. reflexivity. Qed.

(** C6, as the code has it. When the state file is missing, when opening
    or reading it raises [IOError], or when its text is not well-formed JSON
    ([json.JSONDecodeError]), [load_quiz_state] does not fail: it returns the
    default state, whose [sessions], [pending_quizzes] and [completed_quizzes]
    are empty lists, and on which [get_due_quizzes] returns the empty list.
    These are the failures it recovers from, and the only ones: it raises
    exactly when the existence test raises or the read raises an exception of
    another class, such as [UnicodeDecodeError] for bytes that do not decode;
    a document that was read is returned as it is. *)
Theorem load_quiz_state_recovers {R : Type} (name : string) (file : state_file R) :
  load_quiz_state (R := R) name Absent = Ok (default_state name) /\
  load_quiz_state (R := R) name (Present (Raise JSONDecodeError))
  = Ok (default_state name) /\
  load_quiz_state (R := R) name (Present (Raise IOError))
  = Ok (default_state name) /\
  project (default_state (R := R) name) = Some name /\
  sessions (default_state (R := R) name) = Some [] /\
  pending_quizzes (default_state (R := R) name) = Some [] /\
  completed_quizzes (default_state (R := R) name) = Some [] /\
  (forall now, get_due_quizzes now (default_state (R := R) name) = Ok []) /\
  (forall e, load_quiz_state name file = Raise e <->
     file = ExistsRaises e \/
     file = Present (Raise e) /\ e <> JSONDecodeError /\ e <> IOError) /\
  (forall document : state R,
     load_quiz_state name (Present (Ok document)) = Ok document).
Proof.
  split_and!; try reflexivity.
  intros e. split.
  - destruct file as [|[document|e']|e']; cbn [load_quiz_state].
    + discriminate.
    + discriminate.
    + destruct e'; try discriminate; intros [= <-]; right;
        (split; [reflexivity|split; discriminate]).
    + intros [= <-]. left. reflexivity.
  - intros [->|(-> & H1 & H2)]; [reflexivity|].
    apply load_quiz_state_propagates; assumption.
Qed.

(** Against C6 as it is worded ("malformed/unreadable JSON never fails"): a
    state file that exists and opens, but whose bytes do not decode as text.
    [json.load] raises [UnicodeDecodeError], a [ValueError] that is neither a
    [json.JSONDecodeError] nor an [IOError]; the handler lets it through and
    the load fails. *)
Lemma load_quiz_state_undecodable :
  load_quiz_state (R := unit) "demo" (Present (Raise UnicodeDecodeError))
  = Raise UnicodeDecodeError /\
  ~ returns (load_quiz_state (R := unit) "demo" (Present (Raise UnicodeDecodeError))).
Proof. split; [reflexivity|]. intros [st Hst]. discriminate. Qed.

(** ** Deserialising a schedule *)

Lemma ScheduleType_of_value_unknown (t : string) :
  t <> "same_day" -> t <> "next_day" -> t <> "weekly" -> t <> "on_demand" ->
  ScheduleType_of_value t = Raise ValueError.
Proof.
  intros H1 H2 H3 H4. unfold ScheduleType_of_value.
  apply String.eqb_neq in H1, H2, H3, H4.
  rewrite H1, H2, H3, H4. reflexivity.
Qed.

Lemma ScheduleType_of_value_value (t : ScheduleType) :
  ScheduleType_of_value (value t) = Ok t.
Proof. destruct t; reflexivity. Qed.

(** What [to_dict] writes, [from_dict] reads back. *)
Lemma from_dict_to_dict (now : datetime) (q : QuizSchedule) :
  from_dict now (to_dict q) = Ok q.
Proof.
  unfold from_dict, to_dict. cbn [qd_session_id qd_type qd_scheduled_for
    qd_summary_path qd_created_at subscript mbind res_bind get_or].
  rewrite ScheduleType_of_value_value. cbn. destruct q; reflexivity.
Qed.

(** C8. [QuizSchedule.from_dict] fails on every dict whose ["type"] is not
    one of "same_day", "next_day", "weekly", "on_demand": it returns no
    schedule at all, of type [ON_DEMAND] or any other, and when the dict has a
    session id and some unknown type the error is the [ValueError] of the
    enumeration. *)
Theorem from_dict_unknown_type (now : datetime) (data : quiz_dict) :
  (forall t, qd_type data = Some t ->
     t <> "same_day" /\ t <> "next_day" /\ t <> "weekly" /\ t <> "on_demand") ->
  (exists e, from_dict now data = Raise e) /\
  (forall q, from_dict now data <> Ok q) /\
  (forall sid t, qd_session_id data = Some sid -> qd_type data = Some t ->
     from_dict now data = Raise ValueError).
Proof.
  intros Hunknown.
  assert (Hraise : exists e, from_dict now data = Raise e /\
            (forall sid t, qd_session_id data = Some sid ->
               qd_type data = Some t -> e = ValueError)).
  { unfold from_dict.
    destruct (qd_session_id data) as [sid|]; cbn [subscript mbind res_bind].
    - destruct (qd_type data) as [t|]; cbn [subscript mbind res_bind].
      + destruct (Hunknown t eq_refl) as (H1 & H2 & H3 & H4).
        rewrite ScheduleType_of_value_unknown by assumption.
        eexists; split; [reflexivity|auto].
      + eexists; split; [reflexivity|]. intros ? ? _ [=].
    - eexists; split; [reflexivity|]. intros ? ? [=]. }
  destruct Hraise as (e & He & Hv). split_and!.
  - exists e. exact He.
  - intros q. rewrite He. discriminate.
  - intros sid t Hs Ht. rewrite He. f_equal. eapply Hv; eassumption.
Qed.

Lemma from_dict_unknown_type_witness :
  let now := mk_datetime 739002 10 30 15 250 in
  let data := mk_quiz_dict (Some "abc123") (Some "monthly")
                (Some (IsoText now)) (Some "summary.json") None in
  (exists e, from_dict now data = Raise e) /\
  (forall q, from_dict now data <> Ok q) /\
  (forall sid t, qd_session_id data = Some sid -> qd_type data = Some t ->
     from_dict now data = Raise ValueError).
Proof.
  intros now data.
  apply (from_dict_unknown_type now data).
  intros t [= <-]. repeat split; discriminate.
Defined.

(** ** The test cases of the repository, replayed *)

(** [test_updates_topic_scores]: 5 of 10, then one right and one wrong. *)
Example test_updates_topic_scores :
  let st := mk_state (R := unit) None None None None
              (Some (<["system_design" := mk_bucket 5 10]> ∅)) in
  let result := mk_result_doc None
                  (Some [mk_question (Some "system_design") (Some true) (Some []);
                         mk_question (Some "system_design") (Some false) (Some [])]) in
  get_or (topic_scores (merge_result_into_state st result)) ∅ !! "system_design"
  = Some (mk_bucket 6 12).
Proof. vm_compute. reflexivity. Qed.

(** [test_calculates_scores_per_type] *)
Example test_calculates_scores_per_type :
  let ask t c := mk_question (Some t) (Some c) (Some []) in
  let results :=
    [mk_result_doc None (Some [ask "system_design" true;
                               ask "system_design" false;
                               ask "counterfactual" true]);
     mk_result_doc None (Some [ask "system_design" true;
                               ask "debugging" false])] in
  calculate_topic_scores results !! "system_design" = Some (mk_bucket 2 3) /\
  calculate_topic_scores results !! "counterfactual" = Some (mk_bucket 1 1) /\
  calculate_topic_scores results !! "debugging" = Some (mk_bucket 0 1) /\
  calculate_topic_scores results !! "unknown" = None.
Proof. vm_compute. repeat split. Qed.

(** A question without a type is counted under "unknown", and a tag that
    occurs twice is counted twice. *)
Example tally_question_defaults :
  let scores := tally_question ∅ (mk_question None None (Some ["x"; "x"])) in
  scores !! "unknown" = Some (mk_bucket 0 1) /\
  scores !! "x" = Some (mk_bucket 0 2).
Proof. vm_compute. split; reflexivity. Qed.

(** [TestShouldScheduleQuiz] *)
Example test_should_schedule_quiz :
  let summary d a := mk_summary (Some d) (Some (<["total_activities" := a]> ∅)) in
  should_schedule_quiz (summary 45 20) None = true /\
  should_schedule_quiz (summary 5 3) None = false /\
  should_schedule_quiz (summary 30 2) None = false /\
  should_schedule_quiz (summary 14 5) None = false /\
  should_schedule_quiz (summary 15 4) None = false.
Proof. vm_compute. repeat split. Qed.

(** The weekly policy on Friday 2026-01-30, 14:00 (ordinal 739646): the
    default target is Friday, so the quiz goes to 2026-02-06, 09:00; with
    Monday as target it goes to 2026-02-02. *)
Example weekly_policy_2026_01_30 :
  let now := mk_datetime 739646 14 0 0 0 in
  let monday := Some (<["weekly_day" := 0]> ∅) in
  schedule_quiz now now "abc123" WEEKLY "s.json" None
  = Ok (mk_QuizSchedule "abc123" WEEKLY (mk_datetime 739653 9 0 0 0) "s.json" now) /\
  schedule_quiz now now "abc123" WEEKLY "s.json" monday
  = Ok (mk_QuizSchedule "abc123" WEEKLY (mk_datetime 739649 9 0 0 0) "s.json" now).
Proof. vm_compute. split; reflexivity. Qed.

(** The other policies at the same instant: four hours later, tomorrow at
    09:00, and now. *)
Example schedule_quiz_other_policies :
  let now := mk_datetime 739646 22 30 0 0 in
  schedule_quiz now now "abc123" SAME_DAY "s.json" None
  = Ok (mk_QuizSchedule "abc123" SAME_DAY (mk_datetime 739647 2 30 0 0) "s.json" now) /\
  schedule_quiz now now "abc123" NEXT_DAY "s.json" None
  = Ok (mk_QuizSchedule "abc123" NEXT_DAY (mk_datetime 739647 9 0 0 0) "s.json" now) /\
  schedule_quiz now now "abc123" ON_DEMAND "s.json" None
  = Ok (mk_QuizSchedule "abc123" ON_DEMAND now "s.json" now).
Proof. vm_compute. repeat split. Qed.

(** The last day of the calendar, a Friday: the target date does not exist and the
    addition raises. *)
Example weekly_policy_overflow :
  schedule_quiz (mk_datetime 3652059 1 0 0 0) (mk_datetime 3652059 1 0 0 0)
    "abc123" WEEKLY "s.json" None
  = Raise OverflowError.
Proof. vm_compute. reflexivity. Qed.

(** Three on-demand quizzes are due at once; completing one leaves two due
    and one completed. *)
Example three_on_demand_quizzes :
  let now := mk_datetime 739646 14 0 0 0 in
  let later := mk_datetime 739646 14 0 5 0 in
  let schedule sid := mk_QuizSchedule sid ON_DEMAND now "s.json" now in
  let outcome :=
    st ← add_pending_quiz (default_state (R := unit) "demo") (schedule "a");
    st ← add_pending_quiz st (schedule "b");
    st ← add_pending_quiz st (schedule "c");
    due ← get_due_quizzes later st;
    st' ← mark_quiz_completed later st "b" tt;
    due' ← get_due_quizzes later st';
    Ok (length due, length due', length (get_or (completed_quizzes st') [])) in
  outcome = Ok (3%nat, 2%nat, 1%nat).
Proof. vm_compute. reflexivity. Qed.

(** * Further properties of [scheduler.py] *)

(** ** Serialised schedules *)

Lemma ScheduleType_of_value_sound (t : string) (member : ScheduleType) :
  ScheduleType_of_value t = Ok member -> t = value member.
Proof.
  unfold ScheduleType_of_value.
  destruct (String.eqb_spec t "same_day") as [->|_]; [intros [= <-]; reflexivity|].
  destruct (String.eqb_spec t "next_day") as [->|_]; [intros [= <-]; reflexivity|].
  destruct (String.eqb_spec t "weekly") as [->|_]; [intros [= <-]; reflexivity|].
  destruct (String.eqb_spec t "on_demand") as [->|_]; [intros [= <-]; reflexivity|].
  discriminate.
Qed.

(** X1. What [to_dict] writes, [from_dict] reads back as the same schedule,
    whatever the clock says; hence two schedules with the same dict are the
    same schedule. *)
Theorem quiz_schedule_round_trip (now : datetime) (q : QuizSchedule) :
  from_dict now (to_dict q) = Ok q /\
  (forall q', to_dict q' = to_dict q -> q' = q).
Proof.
  split; [apply from_dict_to_dict|].
  intros q' Heq.
  pose proof (from_dict_to_dict now q') as Hq'. rewrite Heq in Hq'.
  rewrite from_dict_to_dict in Hq'. congruence.
Qed.

(** X2. [from_dict] returns a schedule exactly when the dict has the four
    required keys, its type is the value of a member and its timestamps read
    as datetimes; the schedule then carries what the dict holds, with
    [created_at] read from the clock only when the dict has none. *)
Theorem from_dict_returns_iff (now : datetime) (data : quiz_dict) (q : QuizSchedule) :
  from_dict now data = Ok q <->
  qd_session_id data = Some (session_id q) /\
  qd_type data = Some (value (schedule_type q)) /\
  (exists text, qd_scheduled_for data = Some text /\
                fromisoformat text = Ok (scheduled_for q)) /\
  qd_summary_path data = Some (summary_path q) /\
  fromisoformat (get_or (qd_created_at data) (isoformat now)) = Ok (created_at q).
Proof.
  unfold from_dict. split.
  - destruct (qd_session_id data) as [sid|]; [|discriminate].
    destruct (qd_type data) as [t|]; [|discriminate].
    cbn [subscript mbind res_bind].
    destruct (ScheduleType_of_value t) as [member|] eqn:Ht; [|discriminate].
    apply ScheduleType_of_value_sound in Ht. subst t.
    destruct (qd_scheduled_for data) as [text|]; [|discriminate].
    cbn [subscript mbind res_bind].
    destruct (fromisoformat text) as [sfor|] eqn:Hsf; [|discriminate].
    destruct (qd_summary_path data) as [spath|]; [|discriminate].
    cbn [subscript mbind res_bind].
    destruct (fromisoformat (get_or (qd_created_at data) (isoformat now)))
      as [created|]; [|discriminate].
    cbn. intros [= <-]. cbn. split_and!; try reflexivity.
    exists text. auto.
  - intros (-> & -> & (text & -> & Hsf) & -> & Hc).
    cbn [subscript mbind res_bind].
    rewrite ScheduleType_of_value_value, Hsf, Hc. cbn. destruct q; reflexivity.
Qed.

(** ** The other scheduling policies *)

Lemma instant_fields (o h m s us : Z) :
  instant (mk_datetime o h m s us)
  = (o * 86400 + (h * 3600 + m * 60 + s)) * 1000000 + us.
Proof. unfold instant. cbn. lia. Qed.

(** Adding whole hours: the instant moves by that many hours, when the
    result is a date of the calendar. *)
Lemma add_hours (now : datetime) (hours : Z) :
  valid now = true ->
  let target := instant now + hours * 3600000000 in
  (86400000000 <= target < (MAXORDINAL + 1) * 86400000000 ->
   exists d, (delta ← timedelta_of 0 hours; add now delta) = Ok d /\
             instant d = target /\ valid d = true) /\
  (~ 86400000000 <= target < (MAXORDINAL + 1) * 86400000000 ->
   (delta ← timedelta_of 0 hours; add now delta) = Raise OverflowError).
Proof.
  intros Hv target. pose proof (valid_bounds now Hv) as (Ho & Hh & Hm & Hs & Hus).
  subst target. destruct now as [o h m s us]. rewrite instant_fields.
  cbn [toordinal hour minute second microsecond] in *.
  unfold MAXORDINAL in *.
  unfold timedelta_of. rewrite Z.add_0_l.
  set (q := hours * 3600 / 86400). set (r := (hours * 3600) mod 86400).
  assert (Hqr : hours * 3600 = 86400 * q + r /\ 0 <= r < 86400).
  { subst q r. split; [apply Z.div_mod; lia|apply Z.mod_pos_bound; lia]. }
  destruct Hqr as [Hqr Hr].
  assert (Hadd : forall delta, delta = mk_timedelta q r 0 ->
            let t := h * 3600 + m * 60 + s + r in
            let days := o + q + t / 86400 in
            add (mk_datetime o h m s us) delta
            = if (0 <? days) && (days <=? 3652059)
              then Ok (mk_datetime days ((t mod 86400) / 3600)
                         (((t mod 86400) mod 3600) / 60)
                         (((t mod 86400) mod 3600) mod 60) us)
              else Raise OverflowError).
  { intros delta ->. unfold add, MAXORDINAL.
    cbn [toordinal hour minute second microsecond td_days td_seconds
         td_microseconds].
    rewrite !Z.add_0_r.
    rewrite (Z.div_small us 1000000), (Z.mod_small us 1000000) by lia.
    rewrite !Z.add_0_r. reflexivity. }
  set (t := h * 3600 + m * 60 + s + r) in *.
  set (days := o + q + t / 86400) in *.
  assert (Ht : t = 86400 * (t / 86400) + t mod 86400 /\ 0 <= t mod 86400 < 86400).
  { split; [apply Z.div_mod; lia|apply Z.mod_pos_bound; lia]. }
  destruct Ht as [Ht Htr].
  assert (Hday : (o * 86400 + (h * 3600 + m * 60 + s)) * 1000000 + us
                 + hours * 3600000000
                 = (days * 86400 + t mod 86400) * 1000000 + us)
    by (subst days; lia).
  rewrite Hday.
  split; intros Hrange.
  - assert (Hd : 0 < days <= 3652059) by lia.
    destruct (Z.leb_spec (Z.abs q) 999999999) as [_|Hbig].
    + cbn [mbind res_bind]. rewrite (Hadd _ eq_refl). cbn zeta.
      fold t. fold days.
      destruct (Z.ltb_spec 0 days); [|lia].
      destruct (Z.leb_spec days 3652059); [|lia]. cbn [andb].
      eexists. split; [reflexivity|].
      set (rem := t mod 86400) in *.
      split.
      * rewrite instant_fields. f_equal. f_equal.
        Z.div_mod_to_equations. lia.
      * unfold valid, valid_time, MAXORDINAL.
        cbn [toordinal hour minute second microsecond].
        rewrite !andb_true_iff, !Z.leb_le, !Z.ltb_lt.
        Z.div_mod_to_equations. lia.
    + exfalso. subst days.
      assert (0 <= t / 86400 <= 1) by (Z.div_mod_to_equations; lia). lia.
  - destruct (Z.leb_spec (Z.abs q) 999999999) as [_|Hbig]; [|reflexivity].
    cbn [mbind res_bind]. rewrite (Hadd _ eq_refl). cbn zeta.
    fold t. fold days.
    destruct (Z.ltb_spec 0 days); destruct (Z.leb_spec days 3652059);
      cbn [andb]; try reflexivity.
    exfalso. apply Hrange. lia.
Qed.

(** Adding whole days past the last date of the calendar raises. *)
Lemma add_whole_days_overflow (now : datetime) (k : Z) :
  valid now = true ->
  0 <= k <= 7 ->
  MAXORDINAL < toordinal now + k ->
  (delta ← timedelta_of k 0; add now delta) = Raise OverflowError.
Proof.
  intros Hv Hk Hmax. apply valid_bounds in Hv.
  destruct Hv as (Ho & Hh & Hm & Hs & Hus).
  unfold timedelta_of. cbn [Z.mul]. rewrite Z.div_0_l, Z.mod_0_l by lia.
  rewrite Z.add_0_r.
  destruct (Z.leb_spec (Z.abs k) 999999999) as [_|Habs]; [|lia].
  cbn [mbind res_bind]. unfold add. cbn [td_days td_seconds td_microseconds].
  rewrite !Z.add_0_r.
  rewrite (Z.div_small (microsecond now) 1000000) by lia.
  rewrite Z.add_0_r.
  set (s := hour now * 3600 + minute now * 60 + second now).
  assert (Hs' : 0 <= s < 86400) by (subst s; lia).
  rewrite (Z.div_small s 86400) by lia.
  rewrite Z.add_0_r.
  destruct (Z.leb_spec (toordinal now + k) MAXORDINAL) as [?|_]; [lia|].
  rewrite andb_false_r. reflexivity.
Qed.

(** X3. Under the same-day policy the quiz is scheduled the configured
    number of hours after [now], to the microsecond, and never before [now]
    when the delay is not negative; when that instant is outside the
    calendar, [schedule_quiz] raises [OverflowError]. *)
Theorem schedule_quiz_same_day (now clock' : datetime) (sid path : string)
    (config : option (gmap string Z)) (hours : Z) :
  valid now = true ->
  get_or (config_or_default config !! "same_day_delay_hours") 4 = hours ->
  let target := instant now + hours * 3600000000 in
  (86400000000 <= target < (MAXORDINAL + 1) * 86400000000 ->
   exists q,
     schedule_quiz now clock' sid SAME_DAY path config = Ok q /\
     session_id q = sid /\ schedule_type q = SAME_DAY /\
     summary_path q = path /\ created_at q = clock' /\
     instant (scheduled_for q) = target /\
     valid (scheduled_for q) = true /\
     (0 <= hours -> leb now (scheduled_for q) = true)) /\
  (~ 86400000000 <= target < (MAXORDINAL + 1) * 86400000000 ->
   schedule_quiz now clock' sid SAME_DAY path config = Raise OverflowError).
Proof.
  intros Hv Hcfg target. subst target.
  destruct (add_hours now hours Hv) as [Hok Hbad].
  unfold schedule_quiz. cbn zeta. rewrite Hcfg.
  split; intros Hrange.
  - destruct (Hok Hrange) as (d & Hd & Hi & Hvd).
    destruct (timedelta_of 0 hours) as [delta|e]; [|discriminate].
    cbn [mbind res_bind] in Hd |- *. rewrite Hd.
    eexists. split; [reflexivity|]. cbn.
    split_and!; try reflexivity; try assumption.
    intros Hpos. apply leb_instant; try assumption. lia.
  - specialize (Hbad Hrange).
    destruct (timedelta_of 0 hours) as [delta|e]; cbn [mbind res_bind] in Hbad |- *.
    + rewrite Hbad. reflexivity.
    + injection Hbad as ->. reflexivity.
Qed.

(** Friday 2026-01-30, 22:30, default delay of four hours. *)
Lemma schedule_quiz_same_day_witness :
  let now := mk_datetime 739646 22 30 0 0 in
  let target := instant now + 4 * 3600000000 in
  (86400000000 <= target < (MAXORDINAL + 1) * 86400000000 ->
   exists q,
     schedule_quiz now now "abc123" SAME_DAY "s.json" None = Ok q /\
     session_id q = "abc123" /\ schedule_type q = SAME_DAY /\
     summary_path q = "s.json" /\ created_at q = now /\
     instant (scheduled_for q) = target /\
     valid (scheduled_for q) = true /\
     (0 <= 4 -> leb now (scheduled_for q) = true)) /\
  (~ 86400000000 <= target < (MAXORDINAL + 1) * 86400000000 ->
   schedule_quiz now now "abc123" SAME_DAY "s.json" None = Raise OverflowError).
Proof.
  intros now.
  apply (schedule_quiz_same_day now now "abc123" "s.json" None 4).
  - reflexivity.
  - vm_compute. reflexivity.
Defined.

(** [replace] with a configured hour and zeros. *)
Lemma replace_time_hour (self : datetime) (h : Z) :
  replace_time self h 0 0 0
  = if negb (fits_int h) then Raise OverflowError
    else if (0 <=? h) && (h <? 24)
    then Ok {| toordinal := toordinal self;
               hour := h; minute := 0; second := 0; microsecond := 0 |}
    else Raise ValueError.
Proof.
  unfold replace_time, valid_time. cbn. rewrite !andb_true_r. reflexivity.
Qed.

(** X4. Under the next-day policy the quiz is scheduled on the day after
    [now], at the configured hour sharp, which is after [now]. A configured
    hour outside 0..23 makes [schedule_quiz] raise: [ValueError] when the hour
    fits a C integer, [OverflowError] when it does not. On the last day of the
    calendar the call raises [OverflowError] whatever the hour. *)
Theorem schedule_quiz_next_day (now clock' : datetime) (sid path : string)
    (config : option (gmap string Z)) (next_day_hour : Z) :
  valid now = true ->
  get_or (config_or_default config !! "next_day_hour") 9 = next_day_hour ->
  (toordinal now < MAXORDINAL -> 0 <= next_day_hour <= 23 ->
   exists q,
     schedule_quiz now clock' sid NEXT_DAY path config = Ok q /\
     session_id q = sid /\ schedule_type q = NEXT_DAY /\
     summary_path q = path /\ created_at q = clock' /\
     scheduled_for q = mk_datetime (toordinal now + 1) next_day_hour 0 0 0 /\
     days_between (scheduled_for q) now = 1 /\
     valid (scheduled_for q) = true /\
     instant now < instant (scheduled_for q)) /\
  (toordinal now < MAXORDINAL -> ~ 0 <= next_day_hour <= 23 ->
   -2147483648 <= next_day_hour <= 2147483647 ->
   schedule_quiz now clock' sid NEXT_DAY path config = Raise ValueError) /\
  (toordinal now < MAXORDINAL ->
   ~ -2147483648 <= next_day_hour <= 2147483647 ->
   schedule_quiz now clock' sid NEXT_DAY path config = Raise OverflowError) /\
  (toordinal now = MAXORDINAL ->
   schedule_quiz now clock' sid NEXT_DAY path config = Raise OverflowError).
Proof.
  intros Hv Hcfg.
  pose proof (valid_bounds now Hv) as (Ho & Hh & Hm & Hs & Hus).
  unfold schedule_quiz. cbn zeta. rewrite Hcfg.
  assert (Htomorrow : toordinal now < MAXORDINAL ->
            (delta ← timedelta_of 1 0;
             tomorrow ← add now delta;
             replace_time tomorrow next_day_hour 0 0 0)
            = if negb (fits_int next_day_hour) then Raise OverflowError
              else if (0 <=? next_day_hour) && (next_day_hour <? 24)
              then Ok (mk_datetime (toordinal now + 1) next_day_hour 0 0 0)
              else Raise ValueError).
  { intros Hlast.
    pose proof (add_whole_days now 1 Hv ltac:(lia) ltac:(lia)) as Hadd.
    destruct (timedelta_of 1 0) as [delta|e]; [|discriminate].
    cbn [mbind res_bind] in Hadd |- *. rewrite Hadd.
    cbn [mbind res_bind]. rewrite replace_time_hour. reflexivity. }
  unfold fits_int in Htomorrow.
  split_and!.
  - intros Hlast Hhour. rewrite (Htomorrow Hlast).
    destruct (Z.leb_spec (-2147483648) next_day_hour); [|lia].
    destruct (Z.leb_spec next_day_hour 2147483647); [|lia].
    destruct (Z.leb_spec 0 next_day_hour); [|lia].
    destruct (Z.ltb_spec next_day_hour 24); [|lia].
    cbn. eexists. split; [reflexivity|]. cbn.
    split_and!; try reflexivity.
    + unfold days_between. cbn. lia.
    + unfold valid, valid_time. cbn.
      rewrite !andb_true_iff, !Z.leb_le, !Z.ltb_lt. unfold MAXORDINAL in *. lia.
    + unfold instant. cbn. lia.
  - intros Hlast Hhour Hfits. rewrite (Htomorrow Hlast).
    destruct (Z.leb_spec (-2147483648) next_day_hour); [|lia].
    destruct (Z.leb_spec next_day_hour 2147483647); [|lia].
    destruct (Z.leb_spec 0 next_day_hour); destruct (Z.ltb_spec next_day_hour 24);
      cbn; try reflexivity. lia.
  - intros Hlast Hfits. rewrite (Htomorrow Hlast).
    destruct (Z.leb_spec (-2147483648) next_day_hour);
      destruct (Z.leb_spec next_day_hour 2147483647); cbn; try reflexivity. lia.
  - intros Hlast.
    pose proof (add_whole_days_overflow now 1 Hv ltac:(lia) ltac:(lia)) as Hadd.
    destruct (timedelta_of 1 0) as [delta|e]; cbn [mbind res_bind] in Hadd |- *.
    + rewrite Hadd. reflexivity.
    + injection Hadd as ->. reflexivity.
Qed.

Lemma schedule_quiz_next_day_witness :
  let now := mk_datetime 739646 22 30 0 0 in
  (toordinal now < MAXORDINAL -> 0 <= 9 <= 23 ->
   exists q,
     schedule_quiz now now "abc123" NEXT_DAY "s.json" None = Ok q /\
     session_id q = "abc123" /\ schedule_type q = NEXT_DAY /\
     summary_path q = "s.json" /\ created_at q = now /\
     scheduled_for q = mk_datetime (toordinal now + 1) 9 0 0 0 /\
     days_between (scheduled_for q) now = 1 /\
     valid (scheduled_for q) = true /\
     instant now < instant (scheduled_for q)) /\
  (toordinal now < MAXORDINAL -> ~ 0 <= 9 <= 23 ->
   -2147483648 <= 9 <= 2147483647 ->
   schedule_quiz now now "abc123" NEXT_DAY "s.json" None = Raise ValueError) /\
  (toordinal now < MAXORDINAL ->
   ~ -2147483648 <= 9 <= 2147483647 ->
   schedule_quiz now now "abc123" NEXT_DAY "s.json" None = Raise OverflowError) /\
  (toordinal now = MAXORDINAL ->
   schedule_quiz now now "abc123" NEXT_DAY "s.json" None = Raise OverflowError).
Proof.
  intros now.
  apply (schedule_quiz_next_day now now "abc123" "s.json" None 9).
  - reflexivity.
  - vm_compute. reflexivity.
Defined.

(** The configured hour 24 and the configured hour 2^31, on Friday
    2026-01-30. *)
Example next_day_hour_out_of_range :
  let now := mk_datetime 739646 22 30 0 0 in
  schedule_quiz now now "abc123" NEXT_DAY "s.json"
    (Some (<["next_day_hour" := 24]> ∅)) = Raise ValueError /\
  schedule_quiz now now "abc123" NEXT_DAY "s.json"
    (Some (<["next_day_hour" := -1]> ∅)) = Raise ValueError /\
  schedule_quiz now now "abc123" NEXT_DAY "s.json"
    (Some (<["next_day_hour" := 2147483648]> ∅)) = Raise OverflowError /\
  schedule_quiz now now "abc123" NEXT_DAY "s.json"
    (Some (<["next_day_hour" := -2147483649]> ∅)) = Raise OverflowError.
Proof. vm_compute. repeat split. Qed.

(** ** Adding, resolving and completing *)

Lemma lex_leb_trans (a b c : list Z) :
  length a = length b -> length b = length c ->
  lex_leb a b = true -> lex_leb b c = true -> lex_leb a c = true.
Proof.
  revert b c. induction a as [|x a IH]; intros [|y b] [|z c]; try discriminate;
    try reflexivity.
  cbn [length lex_leb]. intros [= Hab] [= Hbc].
  rewrite !orb_true_iff, !andb_true_iff, !Z.ltb_lt, !Z.eqb_eq.
  intros [Hxy|[-> Hl]] [Hyz|[Heq Hl']]; try (left; lia).
  subst z. right. split; [reflexivity|]. eapply IH; eassumption.
Qed.

Lemma leb_trans (a b c : datetime) :
  leb a b = true -> leb b c = true -> leb a c = true.
Proof. unfold leb. apply lex_leb_trans; reflexivity. Qed.

Lemma timestamp_to_dict (schedule : QuizSchedule) :
  timestamp (to_dict schedule) = Some (scheduled_for schedule).
Proof. reflexivity. Qed.

(** The due list after an addition. *)
Lemma due_after_add {R : Type} (now : datetime) (st : state R)
    (schedule : QuizSchedule) (pending : list quiz_dict) :
  pending_quizzes st = Some pending ->
  Forall (fun q => is_Some (timestamp q)) pending ->
  exists st' due,
    add_pending_quiz st schedule = Ok st' /\
    pending_quizzes st' = Some (pending ++ [to_dict schedule]) /\
    get_due_quizzes now st = Ok due /\
    get_due_quizzes now st'
    = Ok (due ++ if leb (scheduled_for schedule) now then [to_dict schedule] else []) /\
    project st' = project st /\ sessions st' = sessions st /\
    completed_quizzes st' = completed_quizzes st /\
    topic_scores st' = topic_scores st.
Proof.
  intros Hp Hall.
  unfold add_pending_quiz, get_due_quizzes. rewrite Hp.
  cbn [subscript mbind res_bind set_pending_quizzes pending_quizzes get_or
       project sessions completed_quizzes topic_scores].
  eexists. eexists. split; [reflexivity|].
  cbn [pending_quizzes get_or project sessions completed_quizzes topic_scores].
  split; [reflexivity|].
  assert (Hall' : Forall (fun q => is_Some (timestamp q))
                    (pending ++ [to_dict schedule])).
  { apply Forall_app. split; [exact Hall|].
    constructor; [|constructor]. rewrite timestamp_to_dict. eexists; reflexivity. }
  rewrite (due_loop_filter now pending) by exact Hall.
  split; [reflexivity|].
  rewrite (due_loop_filter now (pending ++ [to_dict schedule])) by exact Hall'.
  split_and!; try reflexivity.
  cbn [app]. rewrite filter_app. f_equal. f_equal.
  rewrite filter_cons, filter_nil.
  assert (Hdue : is_due now (to_dict schedule) = leb (scheduled_for schedule) now)
    by reflexivity.
  destruct (leb (scheduled_for schedule) now).
  - rewrite decide_True; [reflexivity|]. rewrite Hdue. exact I.
  - rewrite decide_False; [reflexivity|]. rewrite Hdue. intros [].
Qed.

(** X5. A schedule added with [add_pending_quiz] is resolved by
    [get_due_quizzes] after all the entries that were there, and exactly when
    its time has come: the due list of the new state is the old due list,
    followed by the new entry if [scheduled_for <= now]. The rest of the state
    is untouched. *)
Theorem add_pending_quiz_then_due {R : Type} (now : datetime) (st : state R)
    (schedule : QuizSchedule) (pending : list quiz_dict) :
  pending_quizzes st = Some pending ->
  Forall (fun q => is_Some (timestamp q)) pending ->
  exists st' due,
    add_pending_quiz st schedule = Ok st' /\
    pending_quizzes st' = Some (pending ++ [to_dict schedule]) /\
    get_due_quizzes now st = Ok due /\
    get_due_quizzes now st'
    = Ok (due ++ if leb (scheduled_for schedule) now then [to_dict schedule] else []) /\
    project st' = project st /\ sessions st' = sessions st /\
    completed_quizzes st' = completed_quizzes st /\
    topic_scores st' = topic_scores st.
Proof. apply due_after_add. Qed.

Lemma add_pending_quiz_then_due_witness :
  let now := mk_datetime 739646 14 0 0 0 in
  let soon := mk_datetime 739646 18 0 0 0 in
  let old := to_dict (mk_QuizSchedule "a" ON_DEMAND now "a.json" now) in
  let schedule := mk_QuizSchedule "b" SAME_DAY soon "b.json" now in
  let st := mk_state (R := unit) None None (Some [old]) None None in
  exists st' due,
    add_pending_quiz st schedule = Ok st' /\
    pending_quizzes st' = Some ([old] ++ [to_dict schedule]) /\
    get_due_quizzes now st = Ok due /\
    get_due_quizzes now st'
    = Ok (due ++ if leb (scheduled_for schedule) now then [to_dict schedule] else []) /\
    project st' = project st /\ sessions st' = sessions st /\
    completed_quizzes st' = completed_quizzes st /\
    topic_scores st' = topic_scores st.
Proof.
  intros now soon old schedule st.
  apply (add_pending_quiz_then_due now st schedule [old]).
  - reflexivity.
  - repeat constructor. eexists; reflexivity.
Defined.

(** X6. An on-demand quiz is due at once and stays due: [schedule_quiz]
    never fails under that policy, whatever the configuration, sets
    [scheduled_for] to the clock reading, and once the schedule is added the
    resolver reports it, last in the list, at that reading and at every later
    one. *)
Theorem on_demand_due_at_once {R : Type} (now clock' later : datetime)
    (sid path : string) (config : option (gmap string Z)) (st : state R)
    (pending : list quiz_dict) :
  pending_quizzes st = Some pending ->
  Forall (fun q => is_Some (timestamp q)) pending ->
  leb now later = true ->
  exists q st' due,
    schedule_quiz now clock' sid ON_DEMAND path config = Ok q /\
    scheduled_for q = now /\ session_id q = sid /\ created_at q = clock' /\
    add_pending_quiz st q = Ok st' /\
    get_due_quizzes later st = Ok due /\
    get_due_quizzes later st' = Ok (due ++ [to_dict q]).
Proof.
  intros Hp Hall Hlater.
  eexists. cbn [schedule_quiz mbind res_bind].
  destruct (due_after_add later st
              (new_QuizSchedule clock' sid ON_DEMAND now path None)
              pending Hp Hall) as (st' & due & Hadd & _ & Hdue & Hdue' & _).
  exists st', due. split_and!; try reflexivity; try assumption.
  rewrite Hdue'. cbn [new_QuizSchedule scheduled_for]. rewrite Hlater.
  reflexivity.
Qed.

Lemma on_demand_due_at_once_witness :
  let now := mk_datetime 739646 14 0 0 0 in
  let later := mk_datetime 739650 8 0 0 0 in
  exists q st' due,
    schedule_quiz now now "abc123" ON_DEMAND "s.json" None = Ok q /\
    scheduled_for q = now /\ session_id q = "abc123" /\ created_at q = now /\
    add_pending_quiz (default_state (R := unit) "demo") q = Ok st' /\
    get_due_quizzes later (default_state (R := unit) "demo") = Ok due /\
    get_due_quizzes later st' = Ok (due ++ [to_dict q]).
Proof.
  intros now later.
  apply (on_demand_due_at_once (R := unit) now now later "abc123" "s.json" None
           (default_state "demo") []).
  - reflexivity.
  - constructor.
  - reflexivity.
Defined.

Lemma is_due_later (now later : datetime) (q : quiz_dict) :
  leb now later = true -> is_due now q -> is_due later q.
Proof.
  intros Hlater. unfold is_due. destruct (timestamp q) as [d|]; [|auto].
  rewrite !Is_true_true. intros Hd. eapply leb_trans; eassumption.
Qed.

Lemma filter_sublist_mono {A} (P Q : A -> Prop) `{forall x, Decision (P x)}
    `{forall x, Decision (Q x)} (l : list A) :
  (forall x, P x -> Q x) -> sublist (filter P l) (filter Q l).
Proof.
  intros HPQ. induction l as [|x l IH]; [constructor|].
  rewrite !filter_cons. destruct (decide (P x)) as [HP|HP].
  - rewrite decide_True by auto. constructor. exact IH.
  - destruct (decide (Q x)); [constructor|]; exact IH.
Qed.

(** X7. Once due, due until completed: as the clock advances, the list of
    due quizzes only grows, each later list holding every earlier one in the
    same order. *)
Theorem get_due_quizzes_grows {R : Type} (now later : datetime) (st : state R) :
  Forall (fun q => is_Some (timestamp q)) (get_or (pending_quizzes st) []) ->
  leb now later = true ->
  exists due due',
    get_due_quizzes now st = Ok due /\
    get_due_quizzes later st = Ok due' /\
    sublist due due' /\
    (length due <= length due')%nat.
Proof.
  intros Hall Hlater. unfold get_due_quizzes.
  rewrite !due_loop_filter by exact Hall. cbn [app].
  eexists. eexists. split; [reflexivity|]. split; [reflexivity|].
  assert (Hsub : sublist
            (filter (fun q => is_due now q) (get_or (pending_quizzes st) []))
            (filter (fun q => is_due later q) (get_or (pending_quizzes st) []))).
  { apply filter_sublist_mono. intros q. apply is_due_later. exact Hlater. }
  split; [exact Hsub|]. apply sublist_length. exact Hsub.
Qed.

Lemma get_due_quizzes_grows_witness :
  let now := mk_datetime 739646 14 0 0 0 in
  let later := mk_datetime 739647 9 0 0 0 in
  let quiz sid d := mk_quiz_dict (Some sid) (Some "next_day") (Some (IsoText d))
                      (Some "s.json") None in
  let st := mk_state (R := unit) None None
              (Some [quiz "a" later; quiz "b" now]) None None in
  exists due due',
    get_due_quizzes now st = Ok due /\
    get_due_quizzes later st = Ok due' /\
    sublist due due' /\
    (length due <= length due')%nat.
Proof.
  intros now later quiz st.
  apply (get_due_quizzes_grows now later st).
  - cbn. repeat constructor; eexists; reflexivity.
  - reflexivity.
Defined.

Lemma filter_others_idem (sid : string) (pending : list quiz_dict) :
  filter (fun q => ~ belongs_to sid q) (filter (fun q => ~ belongs_to sid q) pending)
  = filter (fun q => ~ belongs_to sid q) pending.
Proof.
  induction pending as [|q pending IH]; [reflexivity|].
  rewrite filter_cons. destruct (decide (~ belongs_to sid q)) as [Hq|Hq]; [|exact IH].
  rewrite filter_cons, decide_True by exact Hq. f_equal. exact IH.
Qed.

Lemma filter_others_absent (sid : string) (pending : list quiz_dict) :
  Forall (fun q => ~ belongs_to sid q) pending ->
  filter (fun q => ~ belongs_to sid q) pending = pending.
Proof.
  induction 1 as [|q pending Hq _ IH]; [reflexivity|].
  rewrite filter_cons, decide_True by exact Hq. f_equal. exact IH.
Qed.

Lemma session_ids_kept (sid : string) (pending : list quiz_dict) :
  Forall (fun q => is_Some (qd_session_id q)) pending ->
  Forall (fun q => is_Some (qd_session_id q))
    (filter (fun q => ~ belongs_to sid q) pending).
Proof.
  intros Hall. apply Forall_forall. intros q Hq.
  apply list_elem_of_filter in Hq as [_ Hq].
  revert q Hq. apply Forall_forall. exact Hall.
Qed.

Lemma mark_quiz_completed_value {R : Type} (now : datetime) (st : state R)
    (sid : string) (result : R) (pending : list quiz_dict)
    (completed : list (completion R)) :
  pending_quizzes st = Some pending ->
  completed_quizzes st = Some completed ->
  Forall (fun q => is_Some (qd_session_id q)) pending ->
  mark_quiz_completed now st sid result
  = Ok (mk_state (project st) (sessions st)
          (Some (filter (fun q => ~ belongs_to sid q) pending))
          (Some (completed ++ [mk_completion sid (isoformat now) result]))
          (topic_scores st)).
Proof.
  intros Hp Hc Hall. unfold mark_quiz_completed. rewrite Hp.
  cbn [subscript mbind res_bind]. rewrite others_filter by exact Hall.
  cbn [mbind res_bind set_pending_quizzes completed_quizzes]. rewrite Hc.
  reflexivity.
Qed.

(** X8. Completing a session right after scheduling it leaves the state
    that completing it without the new schedule would have left: the new entry
    goes from [pending_quizzes] together with every earlier entry of the
    session, and one completion record is appended. *)
Theorem add_then_complete {R : Type} (now : datetime) (st : state R)
    (schedule : QuizSchedule) (result : R) (pending : list quiz_dict)
    (completed : list (completion R)) :
  pending_quizzes st = Some pending ->
  completed_quizzes st = Some completed ->
  Forall (fun q => is_Some (qd_session_id q)) pending ->
  exists st1 st2,
    add_pending_quiz st schedule = Ok st1 /\
    mark_quiz_completed now st1 (session_id schedule) result = Ok st2 /\
    mark_quiz_completed now st (session_id schedule) result = Ok st2 /\
    (Forall (fun q => ~ belongs_to (session_id schedule) q) pending ->
       pending_quizzes st2 = Some pending).
Proof.
  intros Hp Hc Hall. unfold add_pending_quiz. rewrite Hp.
  cbn [subscript mbind res_bind]. eexists. eexists.
  split; [reflexivity|].
  rewrite (mark_quiz_completed_value now st _ result pending completed Hp Hc Hall).
  rewrite (mark_quiz_completed_value now _ _ result
             (pending ++ [to_dict schedule]) completed).
  - cbn [set_pending_quizzes project sessions topic_scores].
    rewrite filter_app, filter_cons, filter_nil.
    rewrite decide_False by (intros Hn; apply Hn; reflexivity).
    rewrite app_nil_r. split; [reflexivity|]. split; [reflexivity|].
    intros Habsent. cbn [pending_quizzes].
    rewrite filter_others_absent by exact Habsent. reflexivity.
  - reflexivity.
  - exact Hc.
  - apply Forall_app. split; [exact Hall|].
    constructor; [eexists; reflexivity|constructor].
Qed.

Lemma add_then_complete_witness :
  let now := mk_datetime 739646 14 0 0 0 in
  let other := to_dict (mk_QuizSchedule "a" ON_DEMAND now "a.json" now) in
  let schedule := mk_QuizSchedule "b" ON_DEMAND now "b.json" now in
  let st := mk_state None None (Some [other]) (Some []) None in
  exists st1 st2,
    add_pending_quiz st schedule = Ok st1 /\
    mark_quiz_completed now st1 (session_id schedule) 80 = Ok st2 /\
    mark_quiz_completed now st (session_id schedule) 80 = Ok st2 /\
    (Forall (fun q => ~ belongs_to (session_id schedule) q) [other] ->
       pending_quizzes st2 = Some [other]).
Proof.
  intros now other schedule st.
  apply (add_then_complete now st schedule 80 [other] []).
  - reflexivity.
  - reflexivity.
  - repeat constructor. eexists; reflexivity.
Defined.

(** X9. A second completion of the same session is not rejected: it leaves
    [pending_quizzes] as the first completion left it and appends a second
    record after the first. Completing a session that was never pending
    leaves [pending_quizzes] as it was and still appends a record. *)
Theorem mark_quiz_completed_again {R : Type} (now later : datetime)
    (st : state R) (sid : string) (result result' : R)
    (pending : list quiz_dict) (completed : list (completion R)) :
  pending_quizzes st = Some pending ->
  completed_quizzes st = Some completed ->
  Forall (fun q => is_Some (qd_session_id q)) pending ->
  exists st1 st2,
    mark_quiz_completed now st sid result = Ok st1 /\
    mark_quiz_completed later st1 sid result' = Ok st2 /\
    pending_quizzes st2 = pending_quizzes st1 /\
    completed_quizzes st2
    = Some (completed ++ [mk_completion sid (isoformat now) result;
                          mk_completion sid (isoformat later) result']) /\
    (Forall (fun q => ~ belongs_to sid q) pending ->
       pending_quizzes st1 = Some pending).
Proof.
  intros Hp Hc Hall.
  rewrite (mark_quiz_completed_value now st sid result pending completed Hp Hc Hall).
  eexists. eexists. split; [reflexivity|].
  erewrite (mark_quiz_completed_value later);
    [|reflexivity|reflexivity|apply session_ids_kept; exact Hall].
  split; [reflexivity|].
  cbn [pending_quizzes completed_quizzes].
  rewrite filter_others_idem, <- app_assoc.
  split_and!; try reflexivity.
  intros Habsent. rewrite filter_others_absent by exact Habsent. reflexivity.
Qed.

Lemma mark_quiz_completed_again_witness :
  let now := mk_datetime 739646 14 0 0 0 in
  let later := mk_datetime 739646 15 0 0 0 in
  let quiz sid := to_dict (mk_QuizSchedule sid ON_DEMAND now "s.json" now) in
  let st := mk_state None None (Some [quiz "a"; quiz "b"]) (Some []) None in
  exists st1 st2,
    mark_quiz_completed now st "a" 80 = Ok st1 /\
    mark_quiz_completed later st1 "a" 60 = Ok st2 /\
    pending_quizzes st2 = pending_quizzes st1 /\
    completed_quizzes st2
    = Some ([] ++ [mk_completion "a" (isoformat now) 80;
                   mk_completion "a" (isoformat later) 60]) /\
    (Forall (fun q => ~ belongs_to "a" q) [quiz "a"; quiz "b"] ->
       pending_quizzes st1 = Some [quiz "a"; quiz "b"]).
Proof.
  intros now later quiz st.
  apply (mark_quiz_completed_again now later st "a" 80 60 [quiz "a"; quiz "b"] []).
  - reflexivity.
  - reflexivity.
  - repeat constructor; eexists; reflexivity.
Defined.

(** ** When the operations raise *)

Lemma due_loop_first_bad (now : datetime) (before after due : list quiz_dict)
    (bad : quiz_dict) :
  Forall (fun q => is_Some (timestamp q)) before ->
  due_loop now (before ++ bad :: after) due
  = match qd_scheduled_for bad with
    | None => Raise (KeyError "scheduled_for")
    | Some (NotIso _) => Raise ValueError
    | Some (IsoText d) =>
        due_loop now after
          ((due ++ filter (fun q => is_due now q) before)
           ++ if leb d now then [bad] else [])
    end.
Proof.
  intros Hall. revert due.
  induction Hall as [|q before [d Hd] _ IH]; intros due.
  - cbn [app due_loop filter]. rewrite filter_nil, app_nil_r.
    destruct (qd_scheduled_for bad) as [[d|s]|];
      cbn [subscript fromisoformat mbind res_bind]; try reflexivity.
    destruct (leb d now); [reflexivity|]. rewrite app_nil_r. reflexivity.
  - cbn [app due_loop]. unfold timestamp in Hd.
    destruct (qd_scheduled_for q) as [[d'|s]|] eqn:Hq; try discriminate.
    injection Hd as ->. cbn [subscript fromisoformat mbind res_bind].
    rewrite IH. rewrite filter_cons.
    assert (Hdue : is_due now q = leb d now)
      by (unfold is_due, timestamp; rewrite Hq; reflexivity).
    destruct (leb d now).
    + rewrite decide_True by (rewrite Hdue; exact I).
      rewrite <- app_assoc. reflexivity.
    + rewrite decide_False by (rewrite Hdue; intros []). reflexivity.
Qed.

(** X10. [get_due_quizzes] gives no partial result. A state without
    [pending_quizzes] has nothing due. When the call returns, every pending
    entry had a [scheduled_for] that reads as a naive datetime; a single entry
    without one makes the call raise, wherever it stands in the list and
    whether or not the other entries are due. The first such entry decides the
    exception: [KeyError] when it has no [scheduled_for], [ValueError] when
    its text is rejected by [fromisoformat]. *)
Theorem get_due_quizzes_raises {R : Type} (now : datetime) (st : state R) :
  (pending_quizzes st = None -> get_due_quizzes now st = Ok []) /\
  (forall due, get_due_quizzes now st = Ok due ->
     Forall (fun q => is_Some (timestamp q)) (get_or (pending_quizzes st) [])) /\
  (forall before bad after,
     pending_quizzes st = Some (before ++ bad :: after) ->
     timestamp bad = None ->
     exists e, get_due_quizzes now st = Raise e) /\
  (forall before bad after,
     pending_quizzes st = Some (before ++ bad :: after) ->
     Forall (fun q => is_Some (timestamp q)) before ->
     (qd_scheduled_for bad = None ->
      get_due_quizzes now st = Raise (KeyError "scheduled_for")) /\
     (forall text, qd_scheduled_for bad = Some (NotIso text) ->
      get_due_quizzes now st = Raise ValueError)).
Proof.
  unfold get_due_quizzes. split_and!.
  - intros ->. reflexivity.
  - intros due Hdue. apply (due_loop_returns now _ []). eexists; exact Hdue.
  - intros before bad after Hp Hbad. rewrite Hp. cbn [get_or].
    destruct (due_loop now (before ++ bad :: after) []) as [due|e] eqn:Hloop;
      [|eexists; reflexivity].
    exfalso.
    assert (Hall : Forall (fun q => is_Some (timestamp q)) (before ++ bad :: after)).
    { apply (due_loop_returns now _ []). eexists; exact Hloop. }
    apply Forall_app in Hall as [_ Hall]. inversion Hall as [|? ? [d Hd] _]; subst.
    congruence.
  - intros before bad after Hp Hall. rewrite Hp. cbn [get_or].
    rewrite due_loop_first_bad by exact Hall.
    split; [intros ->; reflexivity|intros text ->; reflexivity].
Qed.

(** A due quiz, then an entry without [scheduled_for]: [KeyError]; the same
    with text that is no timestamp: [ValueError]. *)
Example get_due_quizzes_bad_entry :
  let now := mk_datetime 739646 14 0 0 0 in
  let good := to_dict (mk_QuizSchedule "a" ON_DEMAND now "a.json" now) in
  let keyless := mk_quiz_dict (Some "b") (Some "weekly") None (Some "b.json") None in
  let garbled := mk_quiz_dict (Some "c") (Some "weekly") (Some (NotIso "soon"))
                   (Some "c.json") None in
  get_due_quizzes now (mk_state (R := unit) None None (Some [good; keyless; good]) None None)
  = Raise (KeyError "scheduled_for") /\
  get_due_quizzes now (mk_state (R := unit) None None (Some [good; garbled; keyless]) None None)
  = Raise ValueError.
Proof. split; reflexivity. Qed.

Lemma others_raises (sid : string) (pending : list quiz_dict) (e : exn) :
  others sid pending = Raise e -> e = KeyError "session_id".
Proof.
  induction pending as [|q rest IH]; [discriminate|].
  cbn [others]. destruct (qd_session_id q); cbn [subscript mbind res_bind].
  - destruct (others sid rest); cbn [mbind res_bind]; [discriminate|].
    intros [= <-]. apply IH. reflexivity.
  - intros [= <-]. reflexivity.
Qed.

(** X11. [mark_quiz_completed] returns a state exactly when the state has
    both lists and every pending entry has a [session_id]; otherwise it raises
    [KeyError] for the first key it misses. [add_pending_quiz] returns exactly
    when the state has [pending_quizzes]. The state that [load_quiz_state]
    makes up for a missing file accepts both. *)
Theorem lifecycle_operations_raise {R : Type} (now : datetime) (st : state R)
    (sid : string) (result : R) (schedule : QuizSchedule) :
  (returns (mark_quiz_completed now st sid result) <->
   is_Some (pending_quizzes st) /\ is_Some (completed_quizzes st) /\
   Forall (fun q => is_Some (qd_session_id q)) (get_or (pending_quizzes st) [])) /\
  (forall e, mark_quiz_completed now st sid result = Raise e ->
     e = KeyError "pending_quizzes" \/ e = KeyError "session_id" \/
     e = KeyError "completed_quizzes") /\
  (pending_quizzes st = None ->
     mark_quiz_completed now st sid result = Raise (KeyError "pending_quizzes") /\
     add_pending_quiz st schedule = Raise (KeyError "pending_quizzes")) /\
  (returns (add_pending_quiz st schedule) <-> is_Some (pending_quizzes st)) /\
  (forall name,
     returns (mark_quiz_completed now (default_state name) sid result) /\
     returns (add_pending_quiz (default_state (R := R) name) schedule)).
Proof.
  split_and!.
  - unfold mark_quiz_completed. split.
    + intros [st' Hst'].
      destruct (pending_quizzes st) as [pending|]; [|discriminate].
      cbn [subscript mbind res_bind get_or] in Hst' |- *.
      destruct (others sid pending) as [kept|] eqn:Hk; [|discriminate].
      cbn [subscript mbind res_bind set_pending_quizzes completed_quizzes] in Hst'.
      destruct (completed_quizzes st) as [completed|]; [|discriminate].
      split_and!; try (eexists; reflexivity).
      apply (others_returns sid). eexists; exact Hk.
    + intros ([pending Hp] & [completed Hc] & Hall). rewrite Hp in Hall |- *.
      cbn [subscript mbind res_bind get_or] in Hall |- *.
      rewrite others_filter by exact Hall.
      cbn [mbind res_bind set_pending_quizzes completed_quizzes]. rewrite Hc.
      eexists; reflexivity.
  - intros e. unfold mark_quiz_completed.
    destruct (pending_quizzes st) as [pending|];
      cbn [subscript mbind res_bind]; [|intros [= <-]; auto].
    destruct (others sid pending) as [kept|e'] eqn:Hk; cbn [mbind res_bind].
    + cbn [set_pending_quizzes completed_quizzes].
      destruct (completed_quizzes st); cbn [subscript mbind res_bind];
        [discriminate|intros [= <-]; auto].
    + intros [= <-]. apply others_raises in Hk. auto.
  - intros Hp. unfold mark_quiz_completed, add_pending_quiz. rewrite Hp.
    split; reflexivity.
  - unfold add_pending_quiz. split.
    + intros [st' Hst']. destruct (pending_quizzes st); [eexists; reflexivity|discriminate].
    + intros [pending ->]. eexists; reflexivity.
  - intros name. split; eexists; reflexivity.
Qed.

(** ** Notifications *)

(** X12. [check_and_notify_due_quizzes] returns the due quizzes of the
    loaded state; it asks for one notification, with the count and the project
    name in its message, when at least one quiz is due, and for none
    otherwise; a missing [osascript] or a timeout does not keep it from
    returning the list, while any other refusal of the system surfaces as an
    error. A missing state file gives the empty list without notification. *)
Theorem check_and_notify_due_quizzes_spec {R : Type} (name : string)
    (file : state_file R) (now : datetime) (osascript : run_outcome) :
  let resolved := (state ← load_quiz_state name file; get_due_quizzes now state) in
  let out := check_and_notify_due_quizzes name file now osascript in
  (forall e, resolved = Raise e -> out = ([], Raise e)) /\
  (resolved = Ok [] -> out = ([], Ok [])) /\
  (forall first rest,
     resolved = Ok (first :: rest) ->
     out.1 = [["osascript"; "-e";
               notification_script "Claude Learning Quiz"
                 (waiting_message (S (length rest)) name)]] /\
     out.2 = if decide (osascript = OtherOSError)
             then Raise IOError else Ok (first :: rest)) /\
  (file = Absent -> out = ([], Ok [])).
Proof.
  cbn zeta. unfold check_and_notify_due_quizzes.
  split_and!.
  - intros e. destruct (load_quiz_state name file) as [state|e'];
      cbn [mbind res_bind]; [|intros [= ->]; reflexivity].
    destruct (get_due_quizzes now state); [discriminate|].
    intros [= ->]. reflexivity.
  - destruct (load_quiz_state name file) as [state|e'];
      cbn [mbind res_bind]; [|discriminate].
    intros ->. reflexivity.
  - intros first rest. destruct (load_quiz_state name file) as [state|e'];
      cbn [mbind res_bind]; [|discriminate].
    intros ->. cbn [length]. unfold send_notification.
    destruct osascript; cbn; split; reflexivity.
  - intros ->. reflexivity.
Qed.

(** * Further properties of [results_tracker.py] *)

(** ** Skip patterns *)

Lemma add_skip_reasons_lookup (patterns skip_reasons : gmap string Z)
    (reason : string) :
  add_skip_reasons patterns skip_reasons !! reason
  = match skip_reasons !! reason with
    | Some count => Some (get_or (patterns !! reason) 0 + count)
    | None => patterns !! reason
    end.
Proof.
  unfold add_skip_reasons. revert reason.
  apply (map_fold_weak_ind
           (fun (r : gmap string Z) (m : gmap string Z) =>
              forall reason,
                r !! reason
                = match m !! reason with
                  | Some count => Some (get_or (patterns !! reason) 0 + count)
                  | None => patterns !! reason
                  end)).
  - intros reason. rewrite lookup_empty. reflexivity.
  - intros i x m r Hi IH reason.
    destruct (decide (i = reason)) as [->|Hne].
    + rewrite !lookup_insert_eq. rewrite IH, Hi. reflexivity.
    + rewrite !lookup_insert_ne by exact Hne. apply IH.
Qed.

Lemma skip_patterns_fold_lookup (results : list result_file)
    (patterns : gmap string Z) (reason : string) :
  foldl (fun patterns result =>
           add_skip_reasons patterns (get_or (rf_skip_reasons result) ∅))
        patterns results !! reason
  = if decide (Exists (names_reason reason) results)
    then Some (get_or (patterns !! reason) 0 + reason_count reason results)
    else patterns !! reason.
Proof.
  revert patterns. induction results as [|result results IH]; intros patterns.
  - cbn [foldl]. rewrite decide_False; [reflexivity|]. intros H; inversion H.
  - cbn [foldl reason_count foldr]. fold (reason_count reason results).
    rewrite IH, add_skip_reasons_lookup. fold (skip_reasons_of result).
    destruct (skip_reasons_of result !! reason) as [count|] eqn:Hr.
    + rewrite (decide_True (P := Exists _ (result :: results))).
      2: { constructor. unfold names_reason. rewrite Hr. eexists; reflexivity. }
      cbn [get_or].
      destruct (decide (Exists (names_reason reason) results)); f_equal; [lia|].
      assert (Hzero : reason_count reason results = 0).
      { clear -n. induction results as [|r rs IHrs]; [reflexivity|].
        cbn [reason_count foldr]. fold (reason_count reason rs).
        rewrite IHrs by (intros H; apply n; constructor 2; exact H).
        destruct (skip_reasons_of r !! reason) eqn:Hr; [|reflexivity].
        exfalso. apply n. constructor. unfold names_reason. rewrite Hr.
        eexists; reflexivity. }
      lia.
    + cbn [get_or]. rewrite Z.add_0_l.
      destruct (decide (Exists (names_reason reason) results)) as [He|He].
      * rewrite decide_True by (constructor 2; exact He). reflexivity.
      * rewrite decide_False; [reflexivity|].
        intros H. inversion H as [? ? Hn|]; subst; [|contradiction].
        unfold names_reason in Hn. rewrite Hr in Hn. destruct Hn; discriminate.
Qed.

Lemma reason_count_Permutation (reason : string) (results results' : list result_file) :
  Permutation results results' ->
  reason_count reason results = reason_count reason results'.
Proof.
  induction 1 as [|r l l' _ IH|r r' l|l l' l'' _ IH1 _ IH2];
    cbn [reason_count foldr] in *.
  - reflexivity.
  - fold (reason_count reason l) (reason_count reason l'). lia.
  - lia.
  - congruence.
Qed.

(** X13. [get_skip_patterns] holds, under each reason that some result
    document names, the sum of its counts over the documents that name it, and
    nothing under any other reason; documents without [skip_reasons] count for
    nothing, and the order of the documents does not matter. *)
Theorem get_skip_patterns_sums (results : list result_file) (reason : string) :
  (get_skip_patterns results !! reason
   = if decide (Exists (names_reason reason) results)
     then Some (reason_count reason results)
     else None) /\
  (forall results', Permutation results results' ->
     get_skip_patterns results' = get_skip_patterns results) /\
  (forall more,
     reason_count reason (results ++ more)
     = reason_count reason results + reason_count reason more).
Proof.
  split_and!.
  - unfold get_skip_patterns. rewrite skip_patterns_fold_lookup.
    rewrite lookup_empty. reflexivity.
  - intros results' Hperm. apply map_eq. intros k.
    unfold get_skip_patterns. rewrite !skip_patterns_fold_lookup.
    rewrite (reason_count_Permutation k _ _ Hperm).
    destruct (decide (Exists (names_reason k) results)) as [He|He].
    + rewrite decide_True; [reflexivity|]. rewrite <- Hperm. exact He.
    + rewrite decide_False; [reflexivity|]. rewrite <- Hperm. exact He.
  - intros more. induction results as [|r rs IH]; cbn [app reason_count foldr].
    + fold (reason_count reason more). lia.
    + fold (reason_count reason (rs ++ more)) (reason_count reason rs).
      rewrite IH. lia.
Qed.

(** Two results with time-pressure skips, one without skip reasons. *)
Example get_skip_patterns_time_pressure :
  let results :=
    [mk_result_file None (Some (<["time_pressure" := 2]> (<["unclear" := 1]> ∅))) None;
     mk_result_file None None None;
     mk_result_file None (Some (<["time_pressure" := 3]> ∅)) None] in
  get_skip_patterns results
  = <["time_pressure" := 5]> (<["unclear" := 1]> ∅).
Proof. vm_compute. reflexivity. Qed.

(** ** Topic scores across documents *)

Lemma hits_app (key : string) (l1 l2 : list question) :
  hits key (l1 ++ l2) = hits key l1 + hits key l2 /\
  correct_hits key (l1 ++ l2) = correct_hits key l1 + correct_hits key l2.
Proof.
  induction l1 as [|q l1 [IH1 IH2]]; cbn [app hits correct_hits foldr].
  - fold (hits key l2) (correct_hits key l2). lia.
  - fold (hits key (l1 ++ l2)) (correct_hits key (l1 ++ l2))
         (hits key l1) (correct_hits key l1).
    rewrite IH1, IH2. lia.
Qed.

Lemma hits_Permutation (key : string) (l1 l2 : list question) :
  Permutation l1 l2 ->
  hits key l1 = hits key l2 /\ correct_hits key l1 = correct_hits key l2.
Proof.
  induction 1 as [|q l l' _ [IH1 IH2]|q q' l|l l' l'' _ [IH1 IH2] _ [IH3 IH4]];
    cbn [hits correct_hits foldr] in *.
  - auto.
  - fold (hits key l) (hits key l') (correct_hits key l) (correct_hits key l').
    lia.
  - lia.
  - split; congruence.
Qed.

Lemma calculate_fold_lookup (results : list result_doc)
    (scores : gmap string bucket) (key : string) :
  foldl (fun scores result =>
           foldl tally_question scores (get_or (questions result) []))
        scores results !! key
  = credited (scores !! key) (hits key (questions_of results))
      (correct_hits key (questions_of results)).
Proof.
  revert scores. induction results as [|result results IH]; intros scores.
  - reflexivity.
  - cbn [foldl]. rewrite IH, tally_questions_lookup.
    unfold questions_of. cbn [fmap list_fmap concat].
    fold (questions_of results).
    destruct (hits_app key (get_or (questions result) []) (questions_of results))
      as [-> ->].
    pose proof (hits_bounds key (get_or (questions result) [])).
    pose proof (hits_bounds key (questions_of results)).
    apply credited_credited; lia.
Qed.

Lemma questions_of_Permutation (results results' : list result_doc) :
  Permutation results results' ->
  Permutation (questions_of results) (questions_of results').
Proof.
  unfold questions_of.
  induction 1 as [|r l l' _ IH|r r' l|l l' l'' _ IH1 _ IH2];
    cbn [fmap list_fmap concat].
  - reflexivity.
  - apply Permutation_app_head. exact IH.
  - rewrite !app_assoc. apply Permutation_app_tail. apply Permutation_app_comm.
  - etransitivity; eassumption.
Qed.

(** X14. [calculate_topic_scores] depends only on how often the questions
    of all the documents together name each key: under a key it holds the
    number of times the key is named and the number of times by a correct
    answer, and no bucket for a key that is never named. Hence the order in
    which the result files are listed does not change the scores, and
    recomputing over more documents continues the same count. *)
Theorem calculate_topic_scores_counts (results : list result_doc) (key : string) :
  (calculate_topic_scores results !! key
   = credited None (hits key (questions_of results))
       (correct_hits key (questions_of results))) /\
  (forall results', Permutation results results' ->
     calculate_topic_scores results' = calculate_topic_scores results) /\
  (forall more,
     calculate_topic_scores (results ++ more) !! key
     = credited (calculate_topic_scores results !! key)
         (hits key (questions_of more)) (correct_hits key (questions_of more))).
Proof.
  unfold calculate_topic_scores. split_and!.
  - rewrite calculate_fold_lookup, lookup_empty. reflexivity.
  - intros results' Hperm. apply map_eq. intros k.
    rewrite !calculate_fold_lookup.
    destruct (hits_Permutation k _ _ (questions_of_Permutation _ _ Hperm))
      as [-> ->].
    reflexivity.
  - intros more. rewrite foldl_app, calculate_fold_lookup. reflexivity.
Qed.

(** X15. [merge_result_into_state] keeps no record of what it has merged:
    merging the same result a second time counts its answers a second time.
    The order of two merges does not matter: either way the same state
    results. *)
Theorem merge_result_into_state_again {R : Type} (st : state R)
    (result result' : result_doc) (key : string) :
  let before := get_or (topic_scores st) ∅ in
  let asked := get_or (questions result) [] in
  get_or (topic_scores
            (merge_result_into_state (merge_result_into_state st result) result))
         ∅ !! key
  = credited (before !! key) (2 * hits key asked) (2 * correct_hits key asked) /\
  merge_result_into_state (merge_result_into_state st result) result'
  = merge_result_into_state (merge_result_into_state st result') result.
Proof.
  cbn zeta. rewrite !merge_result_into_state_scores.
  cbn [set_topic_scores topic_scores get_or project sessions pending_quizzes
       completed_quizzes].
  pose proof (hits_bounds key (get_or (questions result) [])).
  split.
  - rewrite !tally_questions_lookup. rewrite credited_credited; [|lia..].
    f_equal; lia.
  - assert (Hswap : forall (base : gmap string bucket) (a b : list question),
              foldl tally_question (foldl tally_question base a) b
              = foldl tally_question (foldl tally_question base b) a).
    { intros base a b. apply map_eq. intros k.
      rewrite !tally_questions_lookup.
      pose proof (hits_bounds k a). pose proof (hits_bounds k b).
      rewrite !credited_credited; [|lia..]. f_equal; lia. }
    rewrite Hswap. reflexivity.
Qed.

(** ** Aggregate statistics *)

Lemma add_summary_sums (results : list result_file) (a b c : Z) :
  foldl add_summary (a, b, c) results
  = (a + summed rs_total results, b + summed rs_correct results,
     c + summed rs_skipped results).
Proof.
  revert a b c. induction results as [|r results IH]; intros a b c.
  - cbn. f_equal; [f_equal|]; lia.
  - cbn [foldl summed foldr].
    fold (summed rs_total results) (summed rs_correct results)
         (summed rs_skipped results).
    unfold add_summary at 2. cbn [fst snd]. rewrite IH.
    destruct (rf_summary r) as [summary|]; cbn [get_or rs_total rs_correct rs_skipped];
      f_equal; [f_equal| |f_equal|]; lia.
Qed.

Lemma summed_Permutation (field : result_summary -> option Z)
    (results results' : list result_file) :
  Permutation results results' -> summed field results = summed field results'.
Proof.
  induction 1 as [|r l l' _ IH|r r' l|l l' l'' _ IH1 _ IH2];
    cbn [summed foldr] in *.
  - reflexivity.
  - fold (summed field l) (summed field l'). lia.
  - lia.
  - congruence.
Qed.

(** X16. [aggregate_results] counts the documents and adds up the [total],
    [correct] and [skipped] of their summaries, a document without summary or
    a summary without a count adding 0; the overall score is the percentage of
    the two sums when some question was counted and 0 otherwise, so that
    nothing is divided by zero; the case of no documents is the same formula,
    and the order of the documents does not matter. *)
Theorem aggregate_results_sums (percent : Z -> Z -> res Z)
    (results : list result_file) :
  let asked := summed rs_total results in
  let right := summed rs_correct results in
  (aggregate_results percent results
   = (score ← (if 0 <? asked then percent right asked else Ok 0);
      Ok {| total_quizzes := Z.of_nat (length results);
            total_questions := asked;
            total_correct := right;
            total_skipped := summed rs_skipped results;
            overall_score := score |})) /\
  (asked <= 0 ->
   exists a, aggregate_results percent results = Ok a /\ overall_score a = 0) /\
  (forall results', Permutation results results' ->
     aggregate_results percent results' = aggregate_results percent results).
Proof.
  cbn zeta.
  assert (Hform : forall l,
            aggregate_results percent l
            = (score ← (if 0 <? summed rs_total l
                        then percent (summed rs_correct l) (summed rs_total l)
                        else Ok 0);
               Ok {| total_quizzes := Z.of_nat (length l);
                     total_questions := summed rs_total l;
                     total_correct := summed rs_correct l;
                     total_skipped := summed rs_skipped l;
                     overall_score := score |})).
  { intros [|r l]; [reflexivity|].
    unfold aggregate_results. rewrite add_summary_sums. cbn [fst snd].
    rewrite !Z.add_0_l. reflexivity. }
  split_and!.
  - apply Hform.
  - intros Hnone. rewrite Hform.
    destruct (Z.ltb_spec 0 (summed rs_total results)); [lia|].
    eexists. split; reflexivity.
  - intros results' Hperm. rewrite !Hform.
    rewrite <- !(summed_Permutation _ _ _ Hperm).
    rewrite <- (Permutation_length Hperm). reflexivity.
Qed.

(** ** Loading the result documents *)


Lemma read_results_tolerated (files : list (res result_file))
    (results : list result_file) :
  Forall tolerated files ->
  read_results files results = Ok (results ++ readable files).
Proof.
  intros Hall. revert results.
  induction Hall as [|file files Hfile _ IH]; intros results.
  - cbn. rewrite app_nil_r. reflexivity.
  - unfold readable. cbn [fmap list_fmap concat]. fold (readable files).
    destruct file as [document|e]; cbn [read_results].
    + rewrite IH, <- app_assoc. reflexivity.
    + destruct e; cbn in Hfile; try contradiction; rewrite IH; reflexivity.
Qed.

Lemma read_results_returns (files : list (res result_file))
    (results : list result_file) :
  returns (read_results files results) -> Forall tolerated files.
Proof.
  revert results. induction files as [|file files IH]; intros results [l Hl];
    [constructor|].
  destruct file as [document|e]; cbn [read_results] in Hl.
  - constructor; [exact I|]. eapply IH. eexists; exact Hl.
  - destruct e; try discriminate;
      (constructor; [exact I|]; eapply IH; eexists; exact Hl).
Qed.

Lemma readable_length (files : list (res result_file)) :
  (length (readable files) <= length files)%nat.
Proof.
  induction files as [|file files IH]; [reflexivity|].
  unfold readable. cbn [fmap list_fmap concat]. fold (readable files).
  rewrite length_app. destruct file; cbn [length]; lia.
Qed.

(** X17. [load_all_results] returns the documents of the files that could
    be read, in the order the files are listed, passing over each file whose
    read raises [json.JSONDecodeError] or [IOError]; a missing directory gives
    the empty list. It raises in two cases only: when the existence test of
    the directory, which stands before the [try], itself raises, and when the
    read of some file raises another exception, for which a single such file
    suffices, wherever it stands in the listing. *)
Theorem load_all_results_readable (results_dir : results_directory) :
  load_all_results NoDirectory = Ok [] /\
  (returns (load_all_results results_dir) <->
   results_dir = NoDirectory \/
   exists files, results_dir = Directory files /\ Forall tolerated files) /\
  (forall files results,
     load_all_results (Directory files) = Ok results ->
     results = readable files /\ (length results <= length files)%nat) /\
  (forall before e after,
     ~ tolerated (Raise e) ->
     exists e', load_all_results (Directory (before ++ Raise e :: after)) = Raise e') /\
  (forall e, load_all_results (DirectoryRaises e) = Raise e).
Proof.
  split_and!.
  - reflexivity.
  - destruct results_dir as [|files|e]; cbn [load_all_results]; split.
    + auto.
    + intros _. eexists; reflexivity.
    + intros Hret. right. exists files. split; [reflexivity|].
      eapply read_results_returns; exact Hret.
    + intros [[=]|(files' & [= <-] & Hall)].
      rewrite read_results_tolerated by exact Hall. eexists; reflexivity.
    + intros [l [=]].
    + intros [[=]|(files' & [=] & _)].
  - intros files results Hres. cbn [load_all_results] in Hres.
    assert (Hall : Forall tolerated files)
      by (apply (read_results_returns files []); eexists; exact Hres).
    rewrite read_results_tolerated in Hres by exact Hall.
    injection Hres as <-. cbn [app]. split; [reflexivity|].
    apply readable_length.
  - intros before e after Hbad. cbn [load_all_results].
    destruct (read_results (before ++ Raise e :: after) []) as [l|e'] eqn:Hread;
      [|eexists; reflexivity].
    exfalso. apply Hbad.
    assert (Hall : Forall tolerated (before ++ Raise e :: after))
      by (apply (read_results_returns _ []); eexists; exact Hread).
    apply Forall_app in Hall as [_ Hall]. inversion Hall; assumption.
  - reflexivity.
Qed.

(** A listing with a document, a file of malformed JSON and a file whose
    bytes do not decode; and a directory that may not be examined. *)
Example load_all_results_cases :
  let document := mk_result_file None None None in
  load_all_results (Directory [Ok document; Raise JSONDecodeError; Raise IOError;
                               Ok document])
  = Ok [document; document] /\
  load_all_results (Directory [Ok document; Raise UnicodeDecodeError])
  = Raise UnicodeDecodeError /\
  load_all_results (DirectoryRaises IOError) = Raise IOError.
Proof. repeat split. Qed.

(** ** The blind spot report *)

Lemma classify_rated (percent : Z -> Z -> res Z)
    (items : list (string * score_dict)) (found : areas) :
  classify percent items found
  = (l ← rated percent items;
     Ok {| weak := weak found ++ filter (fun p => p.2 < 50) l;
           middling := middling found ++ filter (fun p => 50 <= p.2 < 70) l;
           strong := strong found ++ filter (fun p => 70 <= p.2) l |}).
Proof.
  revert found. induction items as [|[topic scores] items IH]; intros found.
  - cbn. rewrite !app_nil_r. destruct found; reflexivity.
  - cbn [classify rated].
    destruct (get_or (sd_total scores) 0 =? 0); [apply IH|].
    destruct (percent (get_or (sd_correct scores) 0) (get_or (sd_total scores) 0))
      as [pct|e]; cbn [mbind res_bind]; [|reflexivity].
    rewrite IH.
    destruct (rated percent items) as [l|e]; cbn [mbind res_bind]; [|reflexivity].
    rewrite !filter_cons. cbn [snd].
    destruct (Z.ltb_spec pct 50) as [Hweak|Hweak].
    + rewrite (decide_True (P := pct < 50)) by lia.
      rewrite (decide_False (P := 50 <= pct < 70)) by lia.
      rewrite (decide_False (P := 70 <= pct)) by lia.
      cbn [weak middling strong]. rewrite <- app_assoc. reflexivity.
    + destruct (Z.ltb_spec pct 70) as [Hmid|Hmid].
      * rewrite (decide_False (P := pct < 50)) by lia.
        rewrite (decide_True (P := 50 <= pct < 70)) by lia.
        rewrite (decide_False (P := 70 <= pct)) by lia.
        cbn [weak middling strong]. rewrite <- app_assoc. reflexivity.
      * rewrite (decide_False (P := pct < 50)) by lia.
        rewrite (decide_False (P := 50 <= pct < 70)) by lia.
        rewrite (decide_True (P := 70 <= pct)) by lia.
        cbn [weak middling strong]. rewrite <- app_assoc. reflexivity.
Qed.

Lemma bands_Permutation (l : list (string * Z)) :
  filter (fun p => p.2 < 50) l ++ filter (fun p => 50 <= p.2 < 70) l
  ++ filter (fun p => 70 <= p.2) l ≡ₚ l.
Proof.
  induction l as [|p l IH]; [reflexivity|].
  rewrite !filter_cons.
  destruct (decide (p.2 < 50)); destruct (decide (50 <= p.2 < 70));
    destruct (decide (70 <= p.2)); try lia; cbn [app].
  - constructor. exact IH.
  - rewrite <- Permutation_middle. constructor. exact IH.
  - rewrite app_assoc, <- Permutation_middle, <- app_assoc.
    constructor. exact IH.
Qed.

Lemma rated_sound (percent : Z -> Z -> res Z)
    (items : list (string * score_dict)) (l : list (string * Z)) :
  rated percent items = Ok l ->
  (forall topic pct, (topic, pct) ∈ l ->
     exists scores, (topic, scores) ∈ items /\
       get_or (sd_total scores) 0 <> 0 /\
       percent (get_or (sd_correct scores) 0) (get_or (sd_total scores) 0) = Ok pct) /\
  (forall topic scores, (topic, scores) ∈ items ->
     get_or (sd_total scores) 0 <> 0 ->
     exists pct, (topic, pct) ∈ l /\
       percent (get_or (sd_correct scores) 0) (get_or (sd_total scores) 0) = Ok pct).
Proof.
  revert l. induction items as [|[topic0 scores0] items IH]; intros l.
  - intros [= <-]. split; intros ? ? Hin; inversion Hin.
  - cbn [rated].
    destruct (Z.eqb_spec (get_or (sd_total scores0) 0) 0) as [Hzero|Hsome].
    + intros Hl. destruct (IH l Hl) as [IH1 IH2]. split.
      * intros topic pct Hin. destruct (IH1 topic pct Hin) as (scores & ? & ?).
        exists scores. split; [right; assumption|assumption].
      * intros topic scores Hin Hne.
        apply elem_of_cons in Hin as [[= -> ->]|Hin]; [contradiction|].
        apply IH2; assumption.
    + destruct (percent (get_or (sd_correct scores0) 0)
                  (get_or (sd_total scores0) 0)) as [pct0|] eqn:Hpct;
        cbn [mbind res_bind]; [|discriminate].
      destruct (rated percent items) as [later|]; cbn [mbind res_bind];
        [|discriminate].
      intros [= <-]. destruct (IH later eq_refl) as [IH1 IH2]. split.
      * intros topic pct Hin.
        apply elem_of_cons in Hin as [[= -> ->]|Hin].
        -- exists scores0. split; [left|auto].
        -- destruct (IH1 topic pct Hin) as (scores & ? & ?).
           exists scores. split; [right; assumption|assumption].
      * intros topic scores Hin Hne.
        apply elem_of_cons in Hin as [[= -> ->]|Hin].
        -- exists pct0. split; [left|assumption].
        -- destruct (IH2 topic scores Hin Hne) as (pct & ? & ?).
           exists pct. split; [right; assumption|assumption].
Qed.

Lemma insert_by_Permutation (before : Z -> Z -> bool) (x : string * Z)
    (l : list (string * Z)) :
  insert_by before x l ≡ₚ x :: l.
Proof.
  induction l as [|y l IH]; [reflexivity|].
  cbn [insert_by]. destruct (before x.2 y.2); [reflexivity|].
  rewrite IH. apply Permutation_swap.
Qed.

Lemma sort_by_Permutation (before : Z -> Z -> bool) (l : list (string * Z)) :
  sort_by before l ≡ₚ l.
Proof.
  induction l as [|x l IH]; [reflexivity|].
  unfold sort_by. cbn [foldr]. fold (sort_by before l).
  rewrite insert_by_Permutation. constructor. exact IH.
Qed.

Section Sorting.

Variable before : Z -> Z -> bool.

Hypothesis before_total : forall a b, before a b = false -> before b a = true.

Hypothesis before_trans :
  forall a b c, before a b = true -> before b c = true -> before a c = true.

Lemma insert_by_in_order (x : string * Z) (l : list (string * Z)) :
  in_order before l -> in_order before (insert_by before x l).
Proof.
  unfold in_order. induction 1 as [|y l Hl IH Hy]; cbn [insert_by].
  - repeat constructor.
  - destruct (before x.2 y.2) eqn:Hxy.
    + constructor; [constructor; assumption|].
      constructor; [exact Hxy|].
      eapply Forall_impl; [exact Hy|]. cbn. intros z Hz.
      eapply before_trans; eassumption.
    + constructor; [exact IH|].
      rewrite insert_by_Permutation. constructor; [|exact Hy].
      apply before_total. exact Hxy.
Qed.

Lemma sort_by_in_order (l : list (string * Z)) : in_order before (sort_by before l).
Proof.
  induction l as [|x l IH]; [constructor|].
  unfold sort_by. cbn [foldr]. apply insert_by_in_order. exact IH.
Qed.

(** The sort is stable: entries with the same percentage keep their order. *)
Lemma insert_by_stable (k : Z) (x : string * Z) (l : list (string * Z)) :
  filter (fun p => p.2 = k) (insert_by before x l)
  = filter (fun p => p.2 = k) (x :: l).
Proof.
  induction l as [|y l IH]; [reflexivity|].
  cbn [insert_by]. destruct (before x.2 y.2) eqn:Hxy; [reflexivity|].
  rewrite filter_cons, IH, !filter_cons.
  destruct (decide (y.2 = k)) as [Hy|Hy]; destruct (decide (x.2 = k)) as [Hx|Hx];
    try reflexivity.
  exfalso. rewrite Hx, Hy in Hxy.
  pose proof (before_total k k Hxy). congruence.
Qed.

Lemma sort_by_stable (k : Z) (l : list (string * Z)) :
  filter (fun p => p.2 = k) (sort_by before l) = filter (fun p => p.2 = k) l.
Proof.
  induction l as [|x l IH]; [reflexivity|].
  unfold sort_by. cbn [foldr]. fold (sort_by before l).
  rewrite insert_by_stable, !filter_cons, IH. reflexivity.
Qed.

End Sorting.

Lemma ascending_total (a b : Z) : ascending a b = false -> ascending b a = true.
Proof. unfold ascending. rewrite Z.leb_gt, Z.leb_le. lia. Qed.

Lemma ascending_trans (a b c : Z) :
  ascending a b = true -> ascending b c = true -> ascending a c = true.
Proof. unfold ascending. rewrite !Z.leb_le. lia. Qed.

Lemma descending_total (a b : Z) : descending a b = false -> descending b a = true.
Proof. unfold descending. rewrite Z.leb_gt, Z.leb_le. lia. Qed.

Lemma descending_trans (a b c : Z) :
  descending a b = true -> descending b c = true -> descending a c = true.
Proof. unfold descending. rewrite !Z.leb_le. lia. Qed.

Lemma generate_blind_spot_report_rated (percent : Z -> Z -> res Z)
    (clock : datetime) (items : list (string * score_dict))
    (patterns : option (gmap string Z)) (report : BlindSpotReport) :
  generate_blind_spot_report percent clock items patterns = Ok report ->
  exists l,
    rated percent items = Ok l /\
    weak_areas report = sort_by ascending (filter (fun p => p.2 < 50) l) /\
    needs_work report = sort_by ascending (filter (fun p => 50 <= p.2 < 70) l) /\
    strong_areas report = sort_by descending (filter (fun p => 70 <= p.2) l) /\
    skip_patterns report = get_or patterns ∅ /\
    suggestions report
    = (weak_suggestion <$> take 3 (weak_areas report))
      ++ (if 3 <=? get_or (get_or patterns ∅ !! "time_pressure") 0
          then ["Consider shorter quizzes to reduce time pressure skips."]
          else []) /\
    generated_at report = clock.
Proof.
  unfold generate_blind_spot_report. rewrite classify_rated.
  destruct (rated percent items) as [l|e]; cbn [mbind res_bind]; [|discriminate].
  cbn [weak middling strong app]. intros [= <-]. exists l.
  cbn [weak_areas needs_work strong_areas skip_patterns suggestions generated_at].
  split_and!; try reflexivity.
  destruct (3 <=? _); [reflexivity|rewrite app_nil_r; reflexivity].
Qed.

(** X18. In a report of [generate_blind_spot_report], every topic with a
    non-zero [total] is listed once, with its percentage, in exactly one of
    the three lists: in [weak_areas] when the percentage is below 50, in
    [needs_work] when it is from 50 to below 70, in [strong_areas] from 70 on;
    a topic whose [total] is 0 or missing is in none. *)
Theorem generate_blind_spot_report_bands (percent : Z -> Z -> res Z)
    (clock : datetime) (items : list (string * score_dict))
    (patterns : option (gmap string Z)) (report : BlindSpotReport) :
  generate_blind_spot_report percent clock items patterns = Ok report ->
  exists l,
    rated percent items = Ok l /\
    weak_areas report ++ needs_work report ++ strong_areas report ≡ₚ l /\
    (forall p, p ∈ weak_areas report <-> p ∈ l /\ p.2 < 50) /\
    (forall p, p ∈ needs_work report <-> p ∈ l /\ 50 <= p.2 < 70) /\
    (forall p, p ∈ strong_areas report <-> p ∈ l /\ 70 <= p.2) /\
    (forall topic pct, (topic, pct) ∈ l ->
       exists scores, (topic, scores) ∈ items /\
         get_or (sd_total scores) 0 <> 0 /\
         percent (get_or (sd_correct scores) 0) (get_or (sd_total scores) 0)
         = Ok pct) /\
    (forall topic scores, (topic, scores) ∈ items ->
       get_or (sd_total scores) 0 <> 0 ->
       exists pct, (topic, pct) ∈ l /\
         percent (get_or (sd_correct scores) 0) (get_or (sd_total scores) 0)
         = Ok pct).
Proof.
  intros Hreport.
  destruct (generate_blind_spot_report_rated _ _ _ _ _ Hreport)
    as (l & Hl & -> & -> & -> & _).
  exists l. destruct (rated_sound percent items l Hl) as [Hsound Hcomplete].
  split_and!; try assumption.
  - rewrite !sort_by_Permutation. apply bands_Permutation.
  - intros p. rewrite sort_by_Permutation. rewrite list_elem_of_filter. tauto.
  - intros p. rewrite sort_by_Permutation. rewrite list_elem_of_filter. tauto.
  - intros p. rewrite sort_by_Permutation. rewrite list_elem_of_filter. tauto.
Qed.

Lemma generate_blind_spot_report_bands_witness :
  let percent c t := Ok (100 * c / t) in
  let clock := mk_datetime 739646 14 0 0 0 in
  let items := [("failure_modes", mk_score_dict (Some 1) (Some 4));
                ("docker", mk_score_dict (Some 0) None);
                ("system_design", mk_score_dict (Some 9) (Some 10));
                ("logs", mk_score_dict (Some 3) (Some 5))] in
  let report :=
    mk_BlindSpotReport [("failure_modes", 25)] [("logs", 60)]
      [("system_design", 90)] ∅
      ["Next session, pay extra attention when Claude discusses failure modes."]
      clock in
  exists l,
    rated percent items = Ok l /\
    weak_areas report ++ needs_work report ++ strong_areas report ≡ₚ l /\
    (forall p, p ∈ weak_areas report <-> p ∈ l /\ p.2 < 50) /\
    (forall p, p ∈ needs_work report <-> p ∈ l /\ 50 <= p.2 < 70) /\
    (forall p, p ∈ strong_areas report <-> p ∈ l /\ 70 <= p.2) /\
    (forall topic pct, (topic, pct) ∈ l ->
       exists scores, (topic, scores) ∈ items /\
         get_or (sd_total scores) 0 <> 0 /\
         percent (get_or (sd_correct scores) 0) (get_or (sd_total scores) 0)
         = Ok pct) /\
    (forall topic scores, (topic, scores) ∈ items ->
       get_or (sd_total scores) 0 <> 0 ->
       exists pct, (topic, pct) ∈ l /\
         percent (get_or (sd_correct scores) 0) (get_or (sd_total scores) 0)
         = Ok pct).
Proof.
  intros percent clock items report.
  apply (generate_blind_spot_report_bands percent clock items None report).
  vm_compute. reflexivity.
Defined.

(** X19. In a report, [weak_areas] and [needs_work] are in ascending order
    of percentage and [strong_areas] in descending order, and topics with the
    same percentage stand in the order in which [topic_scores] holds them. *)
Theorem generate_blind_spot_report_order (percent : Z -> Z -> res Z)
    (clock : datetime) (items : list (string * score_dict))
    (patterns : option (gmap string Z)) (report : BlindSpotReport) :
  generate_blind_spot_report percent clock items patterns = Ok report ->
  in_order ascending (weak_areas report) /\
  in_order ascending (needs_work report) /\
  in_order descending (strong_areas report) /\
  exists l,
    rated percent items = Ok l /\
    forall k,
      filter (fun p => p.2 = k) (weak_areas report)
      = filter (fun p => p.2 = k) (filter (fun p => p.2 < 50) l) /\
      filter (fun p => p.2 = k) (needs_work report)
      = filter (fun p => p.2 = k) (filter (fun p => 50 <= p.2 < 70) l) /\
      filter (fun p => p.2 = k) (strong_areas report)
      = filter (fun p => p.2 = k) (filter (fun p => 70 <= p.2) l).
Proof.
  intros Hreport.
  destruct (generate_blind_spot_report_rated _ _ _ _ _ Hreport)
    as (l & Hl & -> & -> & -> & _).
  split_and!.
  - apply sort_by_in_order; [apply ascending_total|apply ascending_trans].
  - apply sort_by_in_order; [apply ascending_total|apply ascending_trans].
  - apply sort_by_in_order; [apply descending_total|apply descending_trans].
  - exists l. split; [exact Hl|]. intros k. split_and!.
    + apply sort_by_stable, ascending_total.
    + apply sort_by_stable, ascending_total.
    + apply sort_by_stable, descending_total.
Qed.

Lemma generate_blind_spot_report_order_witness :
  let percent c t := Ok (100 * c / t) in
  let clock := mk_datetime 739646 14 0 0 0 in
  let items := [("b", mk_score_dict (Some 4) (Some 10));
                ("a", mk_score_dict (Some 1) (Some 10));
                ("c", mk_score_dict (Some 2) (Some 5));
                ("z", mk_score_dict (Some 8) (Some 10));
                ("y", mk_score_dict (Some 10) (Some 10));
                ("x", mk_score_dict (Some 4) (Some 5))] in
  let report :=
    mk_BlindSpotReport [("a", 10); ("b", 40); ("c", 40)] []
      [("y", 100); ("z", 80); ("x", 80)] ∅
      ["Next session, pay extra attention when Claude discusses a.";
       "Next session, pay extra attention when Claude discusses b.";
       "Next session, pay extra attention when Claude discusses c."]
      clock in
  in_order ascending (weak_areas report) /\
  in_order ascending (needs_work report) /\
  in_order descending (strong_areas report) /\
  exists l,
    rated percent items = Ok l /\
    forall k,
      filter (fun p => p.2 = k) (weak_areas report)
      = filter (fun p => p.2 = k) (filter (fun p => p.2 < 50) l) /\
      filter (fun p => p.2 = k) (needs_work report)
      = filter (fun p => p.2 = k) (filter (fun p => 50 <= p.2 < 70) l) /\
      filter (fun p => p.2 = k) (strong_areas report)
      = filter (fun p => p.2 = k) (filter (fun p => 70 <= p.2) l).
Proof.
  intros percent clock items report.
  apply (generate_blind_spot_report_order percent clock items None report).
  vm_compute. reflexivity.
Defined.

(** X20. The suggestions of a report are one sentence for each of the at
    most three weakest topics, weakest first, with the underscores of the
    topic written as spaces, followed by the advice on shorter quizzes exactly
    when [skip_patterns] counts at least 3 skips for "time_pressure": never
    more than four, and none when no topic is weak and time pressure is below
    3. The report carries the skip patterns it was given, or an empty dict. *)
Theorem generate_blind_spot_report_suggestions (percent : Z -> Z -> res Z)
    (clock : datetime) (items : list (string * score_dict))
    (patterns : option (gmap string Z)) (report : BlindSpotReport) :
  generate_blind_spot_report percent clock items patterns = Ok report ->
  let pressed := 3 <=? get_or (get_or patterns ∅ !! "time_pressure") 0 in
  suggestions report
  = (weak_suggestion <$> take 3 (weak_areas report))
    ++ (if pressed
        then ["Consider shorter quizzes to reduce time pressure skips."]
        else []) /\
  length (suggestions report)
  = (min 3 (length (weak_areas report)) + if pressed then 1 else 0)%nat /\
  (length (suggestions report) <= 4)%nat /\
  (forall first, head (weak_areas report) = Some first ->
     head (suggestions report) = Some (weak_suggestion first) /\
     Forall (fun area => first.2 <= area.2) (weak_areas report)) /\
  (weak_areas report = [] -> pressed = false -> suggestions report = []) /\
  skip_patterns report = get_or patterns ∅.
Proof.
  intros Hreport pressed.
  assert (Hsorted : in_order ascending (weak_areas report)).
  { destruct (generate_blind_spot_report_rated _ _ _ _ _ Hreport)
      as (l & _ & -> & _).
    apply sort_by_in_order; [apply ascending_total|apply ascending_trans]. }
  destruct (generate_blind_spot_report_rated _ _ _ _ _ Hreport)
    as (l & _ & _ & _ & _ & Hskip & Hsugg & _).
  fold pressed in Hsugg. rewrite Hsugg.
  assert (Hlen : length ((weak_suggestion <$> take 3 (weak_areas report))
                         ++ (if pressed
                             then ["Consider shorter quizzes to reduce time pressure skips."]
                             else []))
                 = (min 3 (length (weak_areas report))
                    + if pressed then 1 else 0)%nat).
  { rewrite length_app, length_fmap, length_take. destruct pressed; reflexivity. }
  split_and!.
  - reflexivity.
  - exact Hlen.
  - rewrite Hlen. destruct pressed; lia.
  - intros first Hfirst.
    destruct (weak_areas report) as [|a rest]; [discriminate|].
    injection Hfirst as ->. split; [reflexivity|].
    unfold in_order in Hsorted. inversion Hsorted as [|? ? _ Hall]; subst.
    constructor; [lia|].
    eapply Forall_impl; [exact Hall|]. cbn. unfold ascending. intros z.
    rewrite Z.leb_le. auto.
  - intros -> ->. reflexivity.
  - exact Hskip.
Qed.

Lemma generate_blind_spot_report_suggestions_witness :
  let percent c t := Ok (100 * c / t) in
  let clock := mk_datetime 739646 14 0 0 0 in
  let items := [("failure_modes", mk_score_dict (Some 1) (Some 4));
                ("logs", mk_score_dict (Some 3) (Some 5))] in
  let patterns := Some (<["time_pressure" := 3]> ∅) in
  let report :=
    mk_BlindSpotReport [("failure_modes", 25)] [("logs", 60)] []
      (<["time_pressure" := 3]> ∅)
      ["Next session, pay extra attention when Claude discusses failure modes.";
       "Consider shorter quizzes to reduce time pressure skips."]
      clock in
  let pressed := 3 <=? get_or (get_or patterns ∅ !! "time_pressure") 0 in
  suggestions report
  = (weak_suggestion <$> take 3 (weak_areas report))
    ++ (if pressed
        then ["Consider shorter quizzes to reduce time pressure skips."]
        else []) /\
  length (suggestions report)
  = (min 3 (length (weak_areas report)) + if pressed then 1 else 0)%nat /\
  (length (suggestions report) <= 4)%nat /\
  (forall first, head (weak_areas report) = Some first ->
     head (suggestions report) = Some (weak_suggestion first) /\
     Forall (fun area => first.2 <= area.2) (weak_areas report)) /\
  (weak_areas report = [] -> pressed = false -> suggestions report = []) /\
  skip_patterns report = get_or patterns ∅.
Proof.
  intros percent clock items patterns report.
  apply (generate_blind_spot_report_suggestions percent clock items patterns report).
  vm_compute. reflexivity.
Defined.

(** * Callers and configuration *)

(** ** Running the first due quiz *)

Lemma filter_due_others (now : datetime) (sid : string) (pending : list quiz_dict) :
  filter (fun q => is_due now q) (filter (fun q => ~ belongs_to sid q) pending)
  = filter (fun q => ~ belongs_to sid q) (filter (fun q => is_due now q) pending).
Proof.
  induction pending as [|q pending IH]; [reflexivity|].
  rewrite !filter_cons.
  destruct (decide (~ belongs_to sid q)) as [Hq|Hq];
    destruct (decide (is_due now q)) as [Hd|Hd];
    rewrite ?filter_cons, ?decide_True, ?decide_False by assumption;
    rewrite ?IH; reflexivity.
Qed.

(** X21. What the [run] command of the CLI does to the state: when the
    first due quiz is completed, the quizzes due at any time are those that
    were due at that time, in the same order, without the entries of that
    session; at the time of the run the due list gets strictly shorter. *)
Theorem complete_first_due {R : Type} (now later : datetime) (st : state R)
    (result : R) (pending : list quiz_dict) (completed : list (completion R))
    (first : quiz_dict) (rest : list quiz_dict) (sid : string) :
  pending_quizzes st = Some pending ->
  completed_quizzes st = Some completed ->
  Forall (fun q => is_Some (qd_session_id q)) pending ->
  get_due_quizzes now st = Ok (first :: rest) ->
  qd_session_id first = Some sid ->
  exists st',
    mark_quiz_completed later st sid result = Ok st' /\
    (forall at_time due,
       get_due_quizzes at_time st = Ok due ->
       get_due_quizzes at_time st'
       = Ok (filter (fun q => ~ belongs_to sid q) due)) /\
    get_due_quizzes now st'
    = Ok (filter (fun q => ~ belongs_to sid q) rest) /\
    (length (filter (fun q => ~ belongs_to sid q) rest) < length (first :: rest))%nat.
Proof.
  intros Hp Hc Hall Hdue Hsid.
  rewrite (mark_quiz_completed_value later st sid result pending completed Hp Hc Hall).
  eexists. split; [reflexivity|].
  assert (Hts : Forall (fun q => is_Some (timestamp q)) pending).
  { unfold get_due_quizzes in Hdue. rewrite Hp in Hdue.
    apply (due_loop_returns now _ []). eexists; exact Hdue. }
  assert (Hts' : Forall (fun q => is_Some (timestamp q))
                   (filter (fun q => ~ belongs_to sid q) pending)).
  { apply Forall_forall. intros q Hq. apply list_elem_of_filter in Hq as [_ Hq].
    revert q Hq. apply Forall_forall. exact Hts. }
  assert (Hafter : forall at_time due,
            get_due_quizzes at_time st = Ok due ->
            get_due_quizzes at_time
              (mk_state (project st) (sessions st)
                 (Some (filter (fun q => ~ belongs_to sid q) pending))
                 (Some (completed ++ [mk_completion sid (isoformat later) result]))
                 (topic_scores st))
            = Ok (filter (fun q => ~ belongs_to sid q) due)).
  { intros at_time due. unfold get_due_quizzes. rewrite Hp.
    cbn [pending_quizzes get_or].
    rewrite !due_loop_filter by assumption. cbn [app].
    intros [= <-]. rewrite filter_due_others. reflexivity. }
  split_and!.
  - exact Hafter.
  - rewrite (Hafter now _ Hdue). rewrite filter_cons.
    rewrite decide_False; [reflexivity|]. intros Hn. apply Hn. exact Hsid.
  - cbn [length]. pose proof (length_filter (fun q => ~ belongs_to sid q) rest). lia.
Qed.

Lemma complete_first_due_witness :
  let now := mk_datetime 739646 14 0 0 0 in
  let quiz sid := to_dict (mk_QuizSchedule sid ON_DEMAND now "s.json" now) in
  let st := mk_state None None (Some [quiz "a"; quiz "b"; quiz "a"]) (Some []) None in
  exists st',
    mark_quiz_completed now st "a" 80 = Ok st' /\
    (forall at_time due,
       get_due_quizzes at_time st = Ok due ->
       get_due_quizzes at_time st'
       = Ok (filter (fun q => ~ belongs_to "a" q) due)) /\
    get_due_quizzes now st'
    = Ok (filter (fun q => ~ belongs_to "a" q) [quiz "b"; quiz "a"]) /\
    (length (filter (fun q => ~ belongs_to "a" q) [quiz "b"; quiz "a"])
     < length (quiz "a" :: [quiz "b"; quiz "a"]))%nat.
Proof.
  intros now quiz st.
  apply (complete_first_due now now st 80 [quiz "a"; quiz "b"; quiz "a"] []
           (quiz "a") [quiz "b"; quiz "a"] "a").
  - reflexivity.
  - reflexivity.
  - repeat constructor; eexists; reflexivity.
  - reflexivity.
  - reflexivity.
Defined.

(** ** Partial configurations *)

Lemma default_config_lookup :
  DEFAULT_CONFIG !! "same_day_delay_hours" = Some 4 /\
  DEFAULT_CONFIG !! "next_day_hour" = Some 9 /\
  DEFAULT_CONFIG !! "weekly_day" = Some 4 /\
  DEFAULT_CONFIG !! "min_session_minutes" = Some 15 /\
  DEFAULT_CONFIG !! "min_activities" = Some 5.
Proof. repeat split. Qed.

Lemma config_completed (c : gmap string Z) (key : string) (fallback : Z) :
  DEFAULT_CONFIG !! key = Some fallback ->
  get_or (config_or_default (Some (c ∪ DEFAULT_CONFIG)) !! key) fallback
  = get_or (config_or_default (Some c) !! key) fallback.
Proof.
  intros Hkey. cbn [config_or_default].
  destruct (decide (c ∪ DEFAULT_CONFIG = ∅)) as [Hempty|_].
  { exfalso. apply (f_equal (fun m => m !! key)) in Hempty.
    rewrite lookup_union, Hkey, lookup_empty in Hempty.
    destruct (c !! key); discriminate. }
  destruct (decide (c = ∅)) as [->|_].
  - rewrite (left_id_L ∅ (∪)). reflexivity.
  - rewrite lookup_union, Hkey. destruct (c !! key); reflexivity.
Qed.

(** X22. The fallbacks written in the [.get] calls agree with
    [DEFAULT_CONFIG]: a configuration that sets only some of the keys behaves,
    for [should_schedule_quiz] and for [schedule_quiz], as the same
    configuration completed with the default values, and the empty
    configuration as the default one. *)
Theorem partial_config_defaults (c : gmap string Z) (s : summary)
    (now clock' : datetime) (sid path : string) (policy : ScheduleType) :
  should_schedule_quiz s (Some c)
  = should_schedule_quiz s (Some (c ∪ DEFAULT_CONFIG)) /\
  schedule_quiz now clock' sid policy path (Some c)
  = schedule_quiz now clock' sid policy path (Some (c ∪ DEFAULT_CONFIG)) /\
  should_schedule_quiz s (Some ∅) = should_schedule_quiz s None /\
  schedule_quiz now clock' sid policy path (Some ∅)
  = schedule_quiz now clock' sid policy path None.
Proof.
  destruct default_config_lookup as (H1 & H2 & H3 & H4 & H5).
  split_and!.
  - unfold should_schedule_quiz. cbn zeta.
    rewrite (config_completed c _ _ H4), (config_completed c _ _ H5). reflexivity.
  - unfold schedule_quiz. cbn zeta.
    destruct policy;
      rewrite ?(config_completed c _ _ H1), ?(config_completed c _ _ H2),
        ?(config_completed c _ _ H3); reflexivity.
  - reflexivity.
  - reflexivity.
Qed.

(** X23. Eligibility is monotone: under any configuration, a session that
    is eligible stays eligible when it is longer and has more activities, and
    one that is not eligible stays so when it is shorter and has fewer. *)
Theorem should_schedule_quiz_monotone (config : option (gmap string Z))
    (minutes minutes' activities activities' : Z) (other other' : gmap string Z) :
  minutes <= minutes' -> activities <= activities' ->
  let s := mk_summary (Some minutes) (Some (<["total_activities" := activities]> other)) in
  let s' := mk_summary (Some minutes') (Some (<["total_activities" := activities']> other')) in
  (should_schedule_quiz s config = true -> should_schedule_quiz s' config = true) /\
  (should_schedule_quiz s' config = false -> should_schedule_quiz s config = false).
Proof.
  intros Hm Ha s s'. unfold should_schedule_quiz. subst s s'.
  cbn [duration_minutes stats get_or]. rewrite !lookup_insert_eq. cbn [get_or].
  set (m0 := get_or (config_or_default config !! "min_session_minutes") 15).
  set (a0 := get_or (config_or_default config !! "min_activities") 5).
  destruct (Z.ltb_spec minutes m0); destruct (Z.ltb_spec minutes' m0);
    destruct (Z.ltb_spec activities a0); destruct (Z.ltb_spec activities' a0);
    split; intros; try reflexivity; try discriminate; lia.
Qed.

Lemma should_schedule_quiz_monotone_witness :
  let s := mk_summary (Some 20) (Some (<["total_activities" := 6]> ∅)) in
  let s' := mk_summary (Some 45) (Some (<["total_activities" := 20]> ∅)) in
  (should_schedule_quiz s None = true -> should_schedule_quiz s' None = true) /\
  (should_schedule_quiz s' None = false -> should_schedule_quiz s None = false).
Proof.
  apply (should_schedule_quiz_monotone None 20 45 6 20 ∅ ∅); lia.
Defined.

(** ** Scores computed from scratch *)

(** X24. Every bucket of [calculate_topic_scores] has been counted at
    least once and is consistent: [total >= 1] and [0 <= correct <= total];
    so the report never meets a zero [total] there, and a topic is present
    exactly when some question names it. *)
Theorem calculate_topic_scores_consistent (results : list result_doc)
    (key : string) :
  (forall b, calculate_topic_scores results !! key = Some b ->
     1 <= total b /\ 0 <= correct b <= total b /\
     total b = hits key (questions_of results) /\
     correct b = correct_hits key (questions_of results)) /\
  (is_Some (calculate_topic_scores results !! key) <->
   0 < hits key (questions_of results)) /\
  calculate_topic_scores [] = ∅.
Proof.
  unfold calculate_topic_scores.
  pose proof (hits_bounds key (questions_of results)) as Hb.
  split_and!.
  - intros b. rewrite calculate_fold_lookup, lookup_empty. unfold credited.
    destruct (decide (hits key (questions_of results) = 0)); [discriminate|].
    intros [= <-]. cbn. lia.
  - rewrite calculate_fold_lookup, lookup_empty. unfold credited.
    destruct (decide (hits key (questions_of results) = 0)) as [Hz|Hz]; split.
    + intros [b Hb']. discriminate.
    + lia.
    + lia.
    + intros _. eexists; reflexivity.
  - reflexivity.
Qed.

(** ** A weekly day that is no day of the week *)

(** Adding any number of whole days: the date moves when the result is a
    date of the calendar, and the addition raises otherwise. *)
Lemma add_days_any (now : datetime) (k : Z) :
  valid now = true ->
  (0 < toordinal now + k <= MAXORDINAL ->
   (delta ← timedelta_of k 0; add now delta)
   = Ok {| toordinal := toordinal now + k; hour := hour now;
           minute := minute now; second := second now;
           microsecond := microsecond now |}) /\
  (~ 0 < toordinal now + k <= MAXORDINAL ->
   (delta ← timedelta_of k 0; add now delta) = Raise OverflowError).
Proof.
  intros Hv. apply valid_bounds in Hv.
  destruct Hv as (Ho & Hh & Hm & Hs & Hus). unfold MAXORDINAL in *.
  unfold timedelta_of. cbn [Z.mul]. rewrite Z.div_0_l, Z.mod_0_l by lia.
  rewrite Z.add_0_r.
  assert (Hadd : add now (mk_timedelta k 0 0)
                 = if (0 <? toordinal now + k) && (toordinal now + k <=? 3652059)
                   then Ok {| toordinal := toordinal now + k; hour := hour now;
                              minute := minute now; second := second now;
                              microsecond := microsecond now |}
                   else Raise OverflowError).
  { unfold add, MAXORDINAL. cbn [td_days td_seconds td_microseconds].
    rewrite !Z.add_0_r.
    rewrite (Z.div_small (microsecond now) 1000000) by lia.
    rewrite (Z.mod_small (microsecond now) 1000000) by lia.
    rewrite Z.add_0_r.
    set (s := hour now * 3600 + minute now * 60 + second now).
    assert (Hs' : 0 <= s < 86400) by (subst s; lia).
    rewrite (Z.div_small s 86400), (Z.mod_small s 86400) by lia.
    rewrite Z.add_0_r.
    destruct ((0 <? toordinal now + k) && (toordinal now + k <=? 3652059));
      [|reflexivity].
    f_equal. f_equal; subst s; Z.div_mod_to_equations; lia. }
  split; intros Hrange.
  - destruct (Z.leb_spec (Z.abs k) 999999999); [|lia].
    cbn [mbind res_bind]. rewrite Hadd.
    destruct (Z.ltb_spec 0 (toordinal now + k)); [|lia].
    destruct (Z.leb_spec (toordinal now + k) 3652059); [|lia]. reflexivity.
  - destruct (Z.leb_spec (Z.abs k) 999999999); [|reflexivity].
    cbn [mbind res_bind]. rewrite Hadd.
    destruct (Z.ltb_spec 0 (toordinal now + k));
      destruct (Z.leb_spec (toordinal now + k) 3652059); cbn [andb];
      try reflexivity. lia.
Qed.

(** X25. [schedule_quiz] does not check that [weekly_day] is a day of the
    week. For any configured value the quiz is scheduled at 09:00 on the date
    [weekly_day - weekday(now)] days from today, a week later when that is not
    positive; the date falls on weekday [weekly_day mod 7]; it lies more than a
    week ahead when [weekly_day] exceeds the weekday of [now] by more than 7,
    and in the past, so that the quiz is due at once, when [weekly_day] is
    below -7. *)
Theorem schedule_quiz_weekly_any_day (now clock' : datetime) (sid path : string)
    (config : option (gmap string Z)) (weekly_day : Z) :
  valid now = true ->
  get_or (config_or_default config !! "weekly_day") 4 = weekly_day ->
  let gap := weekly_day - weekday now in
  let days_ahead := if gap <=? 0 then gap + 7 else gap in
  (0 < toordinal now + days_ahead <= MAXORDINAL ->
   exists q,
     schedule_quiz now clock' sid WEEKLY path config = Ok q /\
     scheduled_for q = mk_datetime (toordinal now + days_ahead) 9 0 0 0 /\
     weekday (scheduled_for q) = weekly_day mod 7) /\
  (~ 0 < toordinal now + days_ahead <= MAXORDINAL ->
   schedule_quiz now clock' sid WEEKLY path config = Raise OverflowError) /\
  (weekly_day < -7 -> days_ahead < 0) /\
  (weekday now + 7 < weekly_day -> 7 < days_ahead).
Proof.
  intros Hv Hcfg gap days_ahead.
  pose proof (weekday_range now) as Hw.
  destruct (add_days_any now days_ahead Hv) as [Hok Hbad].
  unfold schedule_quiz. cbn zeta. rewrite Hcfg. fold gap. fold days_ahead.
  split_and!.
  - intros Hrange. specialize (Hok Hrange).
    destruct (timedelta_of days_ahead 0) as [delta|e]; [|discriminate].
    cbn [mbind res_bind] in Hok |- *. rewrite Hok. cbn.
    eexists. split; [reflexivity|]. split; [reflexivity|].
    unfold weekday in *. cbn [scheduled_for new_QuizSchedule toordinal].
    subst days_ahead gap.
    destruct (Z.leb_spec (weekly_day - (toordinal now + 6) mod 7) 0);
      Z.div_mod_to_equations; lia.
  - intros Hrange. specialize (Hbad Hrange).
    destruct (timedelta_of days_ahead 0) as [delta|e]; cbn [mbind res_bind] in Hbad |- *.
    + rewrite Hbad. reflexivity.
    + injection Hbad as ->. reflexivity.
  - intros Hlow. subst days_ahead gap.
    destruct (Z.leb_spec (weekly_day - weekday now) 0); lia.
  - intros Hhigh. subst days_ahead gap.
    destruct (Z.leb_spec (weekly_day - weekday now) 0); lia.
Qed.

(** Friday 2026-01-30 with [weekly_day] set to -10: the quiz goes to Friday
    2026-01-23, a week ago. *)
Lemma schedule_quiz_weekly_any_day_witness :
  let now := mk_datetime 739646 14 0 0 0 in
  let config := Some (<["weekly_day" := -10]> ∅) in
  let gap := -10 - weekday now in
  let days_ahead := if gap <=? 0 then gap + 7 else gap in
  (0 < toordinal now + days_ahead <= MAXORDINAL ->
   exists q,
     schedule_quiz now now "abc123" WEEKLY "s.json" config = Ok q /\
     scheduled_for q = mk_datetime (toordinal now + days_ahead) 9 0 0 0 /\
     weekday (scheduled_for q) = -10 mod 7) /\
  (~ 0 < toordinal now + days_ahead <= MAXORDINAL ->
   schedule_quiz now now "abc123" WEEKLY "s.json" config = Raise OverflowError) /\
  (-10 < -7 -> days_ahead < 0) /\
  (weekday now + 7 < -10 -> 7 < days_ahead).
Proof.
  intros now config.
  apply (schedule_quiz_weekly_any_day now now "abc123" "s.json" config (-10)).
  - reflexivity.
  - vm_compute. reflexivity.
Defined.

(** The same Friday with [weekly_day] set to 7, which gives Monday
    2026-02-02, and to -10. *)
Example weekly_policy_unchecked_day :
  let now := mk_datetime 739646 14 0 0 0 in
  schedule_quiz now now "abc123" WEEKLY "s.json" (Some (<["weekly_day" := 7]> ∅))
  = Ok (mk_QuizSchedule "abc123" WEEKLY (mk_datetime 739649 9 0 0 0) "s.json" now) /\
  schedule_quiz now now "abc123" WEEKLY "s.json" (Some (<["weekly_day" := -10]> ∅))
  = Ok (mk_QuizSchedule "abc123" WEEKLY (mk_datetime 739639 9 0 0 0) "s.json" now).
Proof. vm_compute. split; reflexivity. Qed.
